(** * InventoryManager: the product model and the product routes

    A shallow embedding of [models.py] (the [Product] row, [stock_alert],
    [to_dict]) and of [routes/products.py] (list, create, update), with the
    properties of the stock-alert classifier and of the product service
    stated over it.

    Conventions.
    - Python values decoded from JSON are the inductive [pyval]; a dict is an
      association list in insertion order, looked up by first match.
    - A Python exception is a value of [exn]; code that may raise returns
      [Exc A], and [try ... except] is a [match] on that result.
    - Python [float] is an IEEE 754 binary64 number, [spec_float]; its
      comparisons with [int] are exact, as in CPython, and are computed on
      the rational value of the float.
    - The interpreter and storage services the code calls but does not
      define ([json.loads], [json.dumps], the parsers behind [float] and [int] of a
      text, the database's acceptance of a row) are the fields of [Collaborators]. *)

From Stdlib Require Import ZArith QArith Bool List String Ascii Lia.
From Stdlib Require Import DecimalString.
From Stdlib Require Import Floats.SpecFloat.
Import ListNotations.

Local Open Scope string_scope.
Local Open Scope Z_scope.

(** ** Exceptions and the error monad *)

Inductive exn : Type :=
| ValueError
| JSONDecodeError      (* a subclass of ValueError *)
| TypeError
| AttributeError
| KeyError
| OverflowError
| RecursionError
| SQLAlchemyError.

(** [isinstance(e, ValueError)] *)
Definition is_ValueError (e : exn) : bool :=
  match e with
  | ValueError | JSONDecodeError => true
  | _ => false
  end.

Definition is_TypeError (e : exn) : bool :=
  match e with
  | TypeError => true
  | _ => false
  end.

Definition is_SQLAlchemyError (e : exn) : bool :=
  match e with
  | SQLAlchemyError => true
  | _ => false
  end.

Definition Exc (A : Type) : Type := (exn + A)%type.

Definition ret {A} (a : A) : Exc A := inr a.
Definition raise {A} (e : exn) : Exc A := inl e.
Definition bind {A B} (c : Exc A) (k : A -> Exc B) : Exc B :=
  match c with
  | inl e => inl e
  | inr a => k a
  end.

Declare Scope exc_scope.
Delimit Scope exc_scope with exc.
Notation "x <- c ;; k" := (bind c (fun x => k))
  (at level 61, c at next level, right associativity) : exc_scope.

(** ** Python values *)

Definition pyfloat : Type := spec_float.

#[warnings="-register-all"]
Inductive pyval : Type :=
| PNone
| PBool (b : bool)
| PInt (z : Z)
| PFloat (f : pyfloat)
| PStr (s : string)
| PList (l : list pyval)
| PDict (d : list (string * pyval)).

Definition pydict : Type := list (string * pyval).

(** [d.get(k)] without default: the first binding of [k]. *)
Fixpoint lookup (k : string) (d : pydict) : option pyval :=
  match d with
  | [] => None
  | (k', v) :: d' => if String.eqb k k' then Some v else lookup k d'
  end.

(** [k in d] *)
Definition py_in (k : string) (d : pydict) : bool :=
  match lookup k d with
  | Some _ => true
  | None => false
  end.

(** [d[k]] *)
Definition getitem (d : pydict) (k : string) : Exc pyval :=
  match lookup k d with
  | Some v => ret v
  | None => raise KeyError
  end.

(** [d.get(k, default)] *)
Definition dict_get (d : pydict) (k : string) (default : pyval) : pyval :=
  match lookup k d with
  | Some v => v
  | None => default
  end.

(** [config.get(k, default)] on an arbitrary decoded value: only a dict has
    the method, every other JSON value raises AttributeError. *)
Definition attr_get (config : pyval) (k : string) (default : pyval) : Exc pyval :=
  match config with
  | PDict d => ret (dict_get d k default)
  | _ => raise AttributeError
  end.

(** ** Numbers: the value of an int, a bool or a float *)

Inductive realval : Type :=
| RNan
| RInf (negative : bool)
| RFin (x : Q).

Definition float_val (f : pyfloat) : realval :=
  match f with
  | S754_zero _ => RFin 0%Q
  | S754_infinity s => RInf s
  | S754_nan => RNan
  | S754_finite s m e =>
      let sm := if s then Zneg m else Zpos m in
      match e with
      | Z0 => RFin (inject_Z sm)
      | Zpos p => RFin (inject_Z (sm * Z.pow_pos 2 p))
      | Zneg p => RFin (Qmake sm (Pos.pow 2 p))
      end
  end.

(** The numeric value of an operand of [<=], [>=], [==] against an int;
    [None] for the operands on which Python raises TypeError. *)
Definition real_of (v : pyval) : option realval :=
  match v with
  | PInt z => Some (RFin (inject_Z z))
  | PBool b => Some (RFin (inject_Z (if b then 1 else 0)))
  | PFloat f => Some (float_val f)
  | _ => None
  end.

Definition rv_le (a b : realval) : bool :=
  match a, b with
  | RNan, _ | _, RNan => false
  | RInf true, _ => true
  | _, RInf false => true
  | RInf false, _ => false
  | _, RInf true => false
  | RFin x, RFin y => Qle_bool x y
  end.

Definition rv_lt (a b : realval) : bool :=
  match a, b with
  | RNan, _ | _, RNan => false
  | _, _ => negb (rv_le b a)
  end.

Definition rv_eq (a b : realval) : bool := rv_le a b && rv_le b a.

(** [q <= v] and [q >= v] for an int [q] *)
Definition int_le (q : Z) (v : pyval) : Exc bool :=
  match real_of v with
  | Some r => ret (rv_le (RFin (inject_Z q)) r)
  | None => raise TypeError
  end.

Definition int_ge (q : Z) (v : pyval) : Exc bool :=
  match real_of v with
  | Some r => ret (rv_le r (RFin (inject_Z q)))
  | None => raise TypeError
  end.

Definition float_eq (f g : pyfloat) : bool := rv_eq (float_val f) (float_val g).

(** [a == b] on JSON values: numbers by value across int, bool and float,
    dicts as maps (whatever the order of their keys). *)
Fixpoint py_eq (a b : pyval) {struct a} : bool :=
  match a, b with
  | PNone, PNone => true
  | PStr s, PStr t => String.eqb s t
  | PList l, PList m =>
      (fix all2 (l : list pyval) (m : list pyval) {struct l} : bool :=
         match l, m with
         | [], [] => true
         | x :: l', y :: m' => py_eq x y && all2 l' m'
         | _, _ => false
         end) l m
  | PDict d, PDict d' =>
      (fix sub (d : list (string * pyval)) {struct d} : bool :=
         match d with
         | [] => true
         | (k, v) :: rest =>
             match lookup k d' with
             | Some w => py_eq v w
             | None => false
             end && sub rest
         end) d
      && forallb (fun kv => py_in (fst kv) d) d'
  | (PInt _ | PBool _ | PFloat _), (PInt _ | PBool _ | PFloat _) =>
      match real_of a, real_of b with
      | Some x, Some y => rv_eq x y
      | _, _ => false
      end
  | _, _ => false
  end.

(** ** The builtins [int] and [float] *)

(** binary64 *)
Definition prec : Z := 53.
Definition emax : Z := 1024.

(** [float(z)] for an int: round to nearest even; OverflowError when the
    int is beyond the largest finite float. *)
Definition float_of_int (z : Z) : Exc pyfloat :=
  match binary_normalize prec emax z 0 false with
  | S754_infinity _ => raise OverflowError
  | f => ret f
  end.

(** [int(f)] for a float: truncation towards zero; ValueError on NaN,
    OverflowError on an infinity. *)
Definition int_of_float (f : pyfloat) : Exc Z :=
  match f with
  | S754_nan => raise ValueError
  | S754_infinity _ => raise OverflowError
  | S754_zero _ => ret 0
  | S754_finite s m e =>
      let mag :=
        match e with
        | Z0 => Zpos m
        | Zpos p => Zpos m * Z.pow_pos 2 p
        | Zneg p => Zpos m / Z.pow_pos 2 p
        end in
      ret (if s then - mag else mag)
  end.

Definition float_one : pyfloat := binary_normalize prec emax 1 0 false.
Definition float_zero : pyfloat := S754_zero false.

(** [float(v)]; the float-literal parser of the interpreter is the
    argument [float_of_string], whose only failure is ValueError. *)
Definition py_float (float_of_string : string -> option pyfloat)
    (v : pyval) : Exc pyfloat :=
  match v with
  | PFloat f => ret f
  | PInt z => float_of_int z
  | PBool b => ret (if b then float_one else float_zero)
  | PStr s =>
      match float_of_string s with
      | Some f => ret f
      | None => raise ValueError
      end
  | PNone | PList _ | PDict _ => raise TypeError
  end.

(** ** models.py: the [Product] row *)

(** One row of the [products] table, seen through the ORM. The handlers
    assign request values to the string columns as they come, so these
    attributes hold a [pyval]; [buying_price], [selling_price] and
    [quantity] only ever receive the result of [float] and [int];
    [alert_config] holds the text [json.dumps] returned; [last_updated] is
    a timestamp, here a number of time units. *)
Record Product : Type := {
  id : Z;
  product_index : pyval;
  name : pyval;
  buying_price : pyfloat;
  selling_price : pyfloat;
  quantity : Z;
  alert_config : string;
  description : pyval;
  supplier_name : pyval;
  last_updated : Z;
  category : pyval
}.

(** What the code calls and the repository does not define. *)
Class Collaborators : Type := {
  (** [json.loads]: the decoded value, or the exception it raises *)
  json_loads : string -> Exc pyval;
  (** [json.dumps]: the encoded text, or the exception it raises *)
  json_dumps : pyval -> Exc string;
  (** the parser behind [float(s)] for a string; [None] is ValueError *)
  float_of_string : string -> option pyfloat;
  (** the parser behind [int(s)] for a string (Unicode whitespace and
      decimal digits, underscores, the interpreter's limit on the number of
      digits); [None] is ValueError *)
  int_of_string : string -> option Z;
  (** [datetime.isoformat] *)
  isoformat : Z -> string;
  (** whether the database takes the row at flush (column types and ranges,
      NOT NULL, connection); [false] is an SQLAlchemyError at commit *)
  db_accepts : Product -> bool
}.

Section Model.
Context {env : Collaborators}.

Local Open Scope exc_scope.

(** [int(v)] *)
Definition py_int (v : pyval) : Exc Z :=
  match v with
  | PInt z => ret z
  | PBool b => ret (if b then 1 else 0)
  | PFloat f => int_of_float f
  | PStr s =>
      match int_of_string s with
      | Some z => ret z
      | None => raise ValueError
      end
  | PNone | PList _ | PDict _ => raise TypeError
  end.

(** [Product.stock_alert] without its [try]: the label, or the exception
    that escapes the body. *)
Definition stock_alert_try (self : Product) : Exc string :=
  config <- json_loads (alert_config self) ;;
  in_stock <- attr_get config "in_stock" (PInt 999999) ;;
  low_stock <- attr_get config "low_stock" (PInt 0) ;;
  if quantity self <=? 0 then ret "Out of Stock"
  else
    le_low <- int_le (quantity self) low_stock ;;
    if le_low then ret "Low Stock"
    else
      ge_in <- int_ge (quantity self) in_stock ;;
      if ge_in then ret "In Stock" else ret "Moderate Stock".

(** [Product.stock_alert]: [except Exception] turns every exception into
    the error label. *)
Definition stock_alert (self : Product) : string :=
  match stock_alert_try self with
  | inr label => label
  | inl _ => "Alert Config Error"
  end.

(** [Product.to_dict] *)
Definition to_dict (self : Product) : pydict :=
  [ ("id", PInt (id self));
    ("product_index", product_index self);
    ("name", name self);
    ("buying_price", PFloat (buying_price self));
    ("selling_price", PFloat (selling_price self));
    ("quantity", PInt (quantity self));
    ("alert_level", PStr (stock_alert self));
    ("alert_config", PStr (alert_config self));
    ("description", description self);
    ("supplier_name", supplier_name self);
    ("category", category self);
    ("last_updated", PStr (isoformat (last_updated self))) ].

End Model.

(** ** The store *)

(** The [products] table in insertion order, and the next value of the
    primary-key sequence. *)
Record Db : Type := {
  rows : list Product;
  next_id : Z
}.

(** [Product.query.get(product_id)] *)
Definition query_get (db : Db) (product_id : Z) : option Product :=
  find (fun p => id p =? product_id) (rows db).

(** [Product.query.filter_by(product_index=v).first()]: the first row whose
    column equals the bound value (string equality on the strings the
    column is declared for). *)
Definition first_by_index (db : Db) (v : pyval) : option Product :=
  find (fun p => py_eq (product_index p) v) (rows db).

(** The store after an INSERT that the database rejected and the session
    rolled back: no row is added, and the id the statement drew from the
    sequence is not given back. *)
Definition lose_id (db : Db) : Db :=
  {| rows := rows db; next_id := next_id db + 1 |}.

(** [db.session.add(p); db.session.commit()] once the row is accepted *)
Definition insert_row (db : Db) (p : Product) : Db :=
  {| rows := rows db ++ [p]; next_id := next_id db + 1 |}.

(** [UPDATE products SET ... WHERE id = product_id]: [assign] sets the
    columns of the statement, on the row with that primary key. *)
Definition update_row (db : Db) (product_id : Z) (assign : Product -> Product)
  : Db :=
  {| rows := map (fun r => if id r =? product_id then assign r else r) (rows db);
     next_id := next_id db |}.

(** ** Responses *)

(** A message is a literal text, or a prefix followed by [str(e)] for the
    exception caught (the text of an exception is not modelled). *)
Inductive message : Type :=
| Text (s : string)
| WithExn (prefix : string) (e : exn).

Record Pagination : Type := {
  total : Z;
  pages : Z;
  current_page : Z;
  per_page : Z;
  has_next : bool;
  has_prev : bool
}.

(** The JSON object a handler returns *)
Inductive payload : Type :=
| ErrorPayload (msg : message)
| ProductPayload (msg : string) (data : pydict)
| ListPayload (data : list pydict) (pagination : Pagination).

(** body and HTTP status *)
Definition response : Type := (payload * Z)%type.

Definition error_response (msg : message) (status_code : Z) : response :=
  (ErrorPayload msg, status_code).

(** The request body: [request.is_json] is false, or [request.get_json()]
    is the JSON object [data] (the body of POST and PUT is a JSON object). *)
Inductive request_body : Type :=
| NotJson
| Json (data : pydict).

(** ** Handlers: exception, early return, or next statement *)

Inductive outcome (A : Type) : Type :=
| Raise (e : exn)
| Return (r : response)
| Next (a : A).
Arguments Raise {A} e.
Arguments Return {A} r.
Arguments Next {A} a.

Definition hbind {A B} (c : outcome A) (k : A -> outcome B) : outcome B :=
  match c with
  | Raise e => Raise e
  | Return r => Return r
  | Next a => k a
  end.

(** A statement that may raise, outside any inner [try] *)
Definition lift {A} (c : Exc A) : outcome A :=
  match c with
  | inl e => Raise e
  | inr a => Next a
  end.

(** [try: x = c  except <classes>: return r] *)
Definition try_except {A} (c : Exc A) (classes : exn -> bool) (r : response)
  : outcome A :=
  match c with
  | inr a => Next a
  | inl e => if classes e then Return r else Raise e
  end.

Declare Scope handler_scope.
Delimit Scope handler_scope with handler.
Notation "x <- c ;; k" := (hbind c (fun x => k))
  (at level 61, c at next level, right associativity) : handler_scope.
Notation "' pat <- c ;; k" := (hbind c (fun x => match x with pat => k end))
  (at level 61, pat pattern, c at next level, right associativity) : handler_scope.

(** ** Pagination of the query *)

(** The object [Product.query.paginate(page=, per_page=, error_out=False)]
    returns. [paginate] is Flask-SQLAlchemy's (version 3): without
    [error_out] a page below 1 becomes 1 and a page size below 1 becomes the
    library's own default 20; the items are the LIMIT / OFFSET slice of the
    table; a page past the end is an empty slice, not an error. *)
Record QueryPagination : Type := {
  items : list Product;
  q_page : Z;
  q_per_page : Z;
  q_total : Z
}.

Definition paginate (table : list Product) (page per_page : Z) : QueryPagination :=
  let page := if page <? 1 then 1 else page in
  let per_page := if per_page <? 1 then 20 else per_page in
  {| items := firstn (Z.to_nat per_page)
                (skipn (Z.to_nat ((page - 1) * per_page)) table);
     q_page := page;
     q_per_page := per_page;
     q_total := Z.of_nat (List.length table) |}.

(** [ceil(total / per_page)] *)
Definition ceil_div (a b : Z) : Z := - ((- a) / b).

(** The properties [pages], [has_prev], [has_next] of the object *)
Definition q_pages (q : QueryPagination) : Z :=
  if q_total q =? 0 then 0 else ceil_div (q_total q) (q_per_page q).
Definition q_has_prev (q : QueryPagination) : bool := 1 <? q_page q.
Definition q_has_next (q : QueryPagination) : bool := q_page q <? q_pages q.

(** ** routes/products.py *)

Section Routes.
Context {env : Collaborators}.

(** [request.args.get(key, default, type=int)]: the default when the key is
    absent or [int] raises ValueError on its text. *)
Definition args_get_int (arg : option string) (default : Z) : Z :=
  match arg with
  | None => default
  | Some s =>
      match int_of_string s with
      | Some n => n
      | None => default
      end
  end.

(** The two locals [page] and [per_page] of [get_all_products] *)
Definition list_params (page_arg per_page_arg : option string) : Z * Z :=
  (args_get_int page_arg 1, args_get_int per_page_arg 25).

(** [get_all_products]. [fetched] tells whether the queries of [paginate]
    return; [false] is the exception they raise (a lost connection, an
    OFFSET or LIMIT beyond the integer range of the database), which
    [except Exception] answers with 500. *)
Definition get_all_products (page_arg per_page_arg : option string)
    (fetched : bool) (db : Db) : response :=
  let page := args_get_int page_arg 1 in
  let per_page := args_get_int per_page_arg 25 in
  if fetched
  then
    let products := paginate (rows db) page per_page in
    (ListPayload (map to_dict (items products))
       {| total := q_total products;
          pages := q_pages products;
          current_page := page;
          per_page := per_page;
          has_next := q_has_next products;
          has_prev := q_has_prev products |},
     200)
  else error_response (WithExn "Failed to fetch products: " SQLAlchemyError) 500.

Definition required_fields : list string :=
  ["product_index"; "name"; "buying_price"; "selling_price"; "quantity";
   "alert_config"].

Definition missing_fields (data : pydict) : list string :=
  filter (fun field => negb (py_in field data)) required_fields.

Local Open Scope handler_scope.

(** The [try] body of [create_new_product]; [now] is [datetime.utcnow()] at
    the INSERT. *)
Definition create_try (req : request_body) (now : Z) (db : Db)
  : outcome (response * Db) :=
  match req with
  | NotJson => Return (error_response (Text "Request must be JSON") 400)
  | Json data =>
      match missing_fields data with
      | _ :: _ =>
          Return (error_response
                    (Text ("Missing fields: "
                           ++ String.concat ", " (missing_fields data))) 400)
      | [] =>
          alert_config <-
            try_except (v <- getitem data "alert_config" ;; json_dumps v)%exc
              (fun e => is_TypeError e || is_ValueError e)
              (error_response (Text "Invalid alert_config format") 400) ;;
          index <- lift (getitem data "product_index") ;;
          match first_by_index db index with
          | Some _ =>
              Return (error_response (Text "Product index already exists") 400)
          | None =>
              name <- lift (getitem data "name") ;;
              buying_price <-
                lift (v <- getitem data "buying_price" ;;
                      py_float float_of_string v)%exc ;;
              selling_price <-
                lift (v <- getitem data "selling_price" ;;
                      py_float float_of_string v)%exc ;;
              quantity <- lift (v <- getitem data "quantity" ;; py_int v)%exc ;;
              let new_product :=
                {| id := next_id db;
                   product_index := index;
                   name := name;
                   buying_price := buying_price;
                   selling_price := selling_price;
                   quantity := quantity;
                   alert_config := alert_config;
                   description := dict_get data "description" (PStr "");
                   supplier_name := dict_get data "supplier_name" (PStr "");
                   last_updated := now;
                   category := dict_get data "category" (PStr "") |} in
              if db_accepts new_product
              then Next ((ProductPayload "Product created successfully"
                            (to_dict new_product), 201),
                         insert_row db new_product)
              else Raise SQLAlchemyError
          end
      end
  end.

(** [create_new_product]: the three [except] clauses in order. An error
    adds no row: nothing was committed, and after the SQLAlchemyError of a
    rejected INSERT the session is rolled back, the sequence having moved
    on. *)
Definition create_new_product (req : request_body) (now : Z) (db : Db)
  : response * Db :=
  match create_try req now db with
  | Next result => result
  | Return r => (r, db)
  | Raise e =>
      if is_ValueError e
      then (error_response (WithExn "Invalid data format: " e) 400, db)
      else if is_SQLAlchemyError e
      then (error_response (WithExn "Database error: " e) 500, lose_id db)
      else (error_response (WithExn "Unexpected error: " e) 500, db)
  end.

(** [if key in data: product.attr = c], with the ORM's record of the
    assignment: the new value, and whether it differs from the value the
    attribute was loaded with (the column type's [==]). *)
Definition set_attr {A} (eqb : A -> A -> bool) (present : bool) (loaded : A)
    (c : outcome A) : outcome (A * bool) :=
  if present
  then v <- c ;; Next (v, negb (eqb v loaded))
  else Next (loaded, false).

(** The [try] body of [update_product]. The handler never assigns
    [last_updated]: the column is declared [onupdate=datetime.utcnow], so
    it becomes [now] when the commit emits an UPDATE for the row. The
    session emits one only for a net change: at flush the value of each
    assigned attribute is compared with the loaded one, and a row none of
    whose attributes differs gets no SQL at all, hence no [onupdate]. *)
Definition update_try (product_id : Z) (req : request_body) (now : Z) (db : Db)
  : outcome (response * Db) :=
  match req with
  | NotJson => Return (error_response (Text "Request must be JSON") 400)
  | Json data =>
      match query_get db product_id with
      | None => Return (error_response (Text "Product not found") 404)
      | Some product =>
          let has key := py_in key data in
          let item key := getitem data key in
          '(name', c1) <-
            set_attr py_eq (has "name") (name product) (lift (item "name")) ;;
          '(buying', c2) <-
            set_attr float_eq (has "buying_price") (buying_price product)
              (try_except
                 (v <- item "buying_price" ;; py_float float_of_string v)%exc
                 is_ValueError
                 (error_response (Text "Invalid buying_price format") 400)) ;;
          '(selling', c3) <-
            set_attr float_eq (has "selling_price") (selling_price product)
              (try_except
                 (v <- item "selling_price" ;; py_float float_of_string v)%exc
                 is_ValueError
                 (error_response (Text "Invalid selling_price format") 400)) ;;
          '(quantity', c4) <-
            set_attr Z.eqb (has "quantity") (quantity product)
              (try_except (v <- item "quantity" ;; py_int v)%exc
                 is_ValueError
                 (error_response (Text "Invalid quantity format") 400)) ;;
          '(config', c5) <-
            set_attr String.eqb (has "alert_config") (alert_config product)
              (try_except (v <- item "alert_config" ;; json_dumps v)%exc
                 (fun e => is_TypeError e || is_ValueError e)
                 (error_response (Text "Invalid alert_config format") 400)) ;;
          '(description', c6) <-
            set_attr py_eq (has "description") (description product)
              (lift (item "description")) ;;
          '(supplier', c7) <-
            set_attr py_eq (has "supplier_name") (supplier_name product)
              (lift (item "supplier_name")) ;;
          '(category', c8) <-
            set_attr py_eq (has "category") (category product)
              (lift (item "category")) ;;
          let changed := c1 || c2 || c3 || c4 || c5 || c6 || c7 || c8 in
          (* the UPDATE never names [id] or [product_index] *)
          let assign (r : Product) :=
            {| id := id r;
               product_index := product_index r;
               name := name';
               buying_price := buying';
               selling_price := selling';
               quantity := quantity';
               alert_config := config';
               description := description';
               supplier_name := supplier';
               last_updated := now;
               category := category' |} in
          if changed
          then
            if db_accepts (assign product)
            then Next ((ProductPayload "Product updated successfully"
                          (to_dict (assign product)), 200),
                       update_row db product_id assign)
            else Raise SQLAlchemyError
          else Next ((ProductPayload "Product updated successfully"
                        (to_dict product), 200), db)
      end
  end.

(** [update_product]: the two [except] clauses in order. *)
Definition update_product (product_id : Z) (req : request_body) (now : Z)
    (db : Db) : response * Db :=
  match update_try product_id req now db with
  | Next result => result
  | Return r => (r, db)
  | Raise e =>
      if is_SQLAlchemyError e
      then (error_response (WithExn "Database error: " e) 500, db)
      else (error_response (WithExn "Unexpected error: " e) 500, db)
  end.

(** The JSON object of the two handlers whose success carries no message
    beside its data, or no data beside its message. *)
Inductive item_payload : Type :=
| ItemError (msg : message)
| ItemData (data : pydict)
| ItemDone (msg : string).

(** [get_single_product]: no statement of its body raises here, as in
    [get_all_products]. *)
Definition get_single_product (product_id : Z) (db : Db) : item_payload * Z :=
  match query_get db product_id with
  | None => (ItemError (Text "Product not found"), 404)
  | Some product => (ItemData (to_dict product), 200)
  end.

(** [DELETE FROM products WHERE id = product_id] *)
Definition delete_row (db : Db) (product_id : Z) : Db :=
  {| rows := filter (fun r => negb (id r =? product_id)) (rows db);
     next_id := next_id db |}.

(** [delete_product]; [committed] tells whether [db.session.commit()]
    returns, [false] being the SQLAlchemyError after which the session is
    rolled back. *)
Definition delete_product (product_id : Z) (committed : bool) (db : Db)
  : (item_payload * Z) * Db :=
  match query_get db product_id with
  | None => ((ItemError (Text "Product not found"), 404), db)
  | Some product =>
      if committed
      then ((ItemDone "Product deleted successfully", 200),
            delete_row db product_id)
      else ((ItemError (WithExn "Database error: " SQLAlchemyError), 500), db)
  end.

End Routes.

(** ** A test double of the collaborators *)

(** The double-quote character, for JSON texts *)
Definition dq : string := String (ascii_of_nat 34) EmptyString.

Definition json_key (k : string) : string := dq ++ k ++ dq ++ ": ".

(** [{"low_stock": <low>, "in_stock": <high>}] *)
Definition config_text (low high : string) : string :=
  "{" ++ json_key "low_stock" ++ low ++ ", " ++ json_key "in_stock" ++ high ++ "}".

Definition config_value (low high : pyval) : pyval :=
  PDict [("low_stock", low); ("in_stock", high)].

(** The texts the examples store in [alert_config], with their decoding.
    The double decodes and encodes these and nothing else. *)
Definition known_configs : list (string * pyval) :=
  [ (config_text "5" "20", config_value (PInt 5) (PInt 20));
    (config_text "-1" "0", config_value (PInt (-1)) (PInt 0));
    (config_text (dq ++ "abc" ++ dq) "10", config_value (PStr "abc") (PInt 10));
    ("{}", PDict []) ].

Definition demo_loads (s : string) : Exc pyval :=
  match lookup s known_configs with
  | Some v => inr v
  | None => inl JSONDecodeError
  end.

Definition demo_dumps (v : pyval) : Exc string :=
  match find (fun kv => py_eq (snd kv) v) known_configs with
  | Some kv => inr (fst kv)
  | None => inl TypeError
  end.

Definition ascii_code (c : ascii) : Z := Z.of_nat (nat_of_ascii c).

(** Whitespace that [int] strips from both ends of an ASCII text: tab to
    carriage return, and the space. *)
Definition is_space (c : ascii) : bool :=
  let n := ascii_code c in
  ((9 <=? n) && (n <=? 13)) || (n =? 32).

Definition is_digit (c : ascii) : bool :=
  let n := ascii_code c in (48 <=? n) && (n <=? 57).

Definition digit_val (c : ascii) : Z := ascii_code c - 48.

Fixpoint lstrip (l : list ascii) : list ascii :=
  match l with
  | c :: l' => if is_space c then lstrip l' else l
  | [] => []
  end.

Definition strip (l : list ascii) : list ascii :=
  rev (lstrip (rev (lstrip l))).

(** Decimal digits, a single underscore allowed between two digits.
    [after_digit] tells whether the previous character was a digit. *)
Fixpoint digits (acc : Z) (after_digit : bool) (l : list ascii) : option Z :=
  match l with
  | [] => if after_digit then Some acc else None
  | c :: l' =>
      if is_digit c then digits (10 * acc + digit_val c) true l'
      else if Ascii.eqb c "_"%char
           then (if after_digit then digits acc false l' else None)
           else None
  end.

(** The parser of the double: [int(s)] on the ASCII decimal texts the
    examples send; any other text is refused. *)
Definition demo_int (s : string) : option Z :=
  let body := strip (list_ascii_of_string s) in
  match body with
  | c :: l' =>
      if Ascii.eqb c "-"%char then option_map Z.opp (digits 0 false l')
      else if Ascii.eqb c "+"%char then digits 0 false l'
      else digits 0 false body
  | [] => None
  end.

Definition demo : Collaborators := {|
  json_loads := demo_loads;
  json_dumps := demo_dumps;
  float_of_string := fun _ => None;
  int_of_string := demo_int;
  isoformat := fun _ => "1970-01-01T00:00:00";
  db_accepts := fun _ => true
|}.

Definition float_2_5 : pyfloat := S754_finite false 5629499534213120 (-51).

Definition widget (q : Z) (config : string) : Product :=
  {| id := 1;
     product_index := PStr "P-1";
     name := PStr "Widget";
     buying_price := float_one;
     selling_price := float_2_5;
     quantity := q;
     alert_config := config;
     description := PStr "";
     supplier_name := PStr "";
     last_updated := 100;
     category := PStr "" |}.


(** A store with one product, and request bodies for the examples *)
Definition shelf : Db :=
  {| rows := [widget 5 (config_text "5" "20")]; next_id := 2 |}.

Definition complete_body (index : string) (price : pyval) : pydict :=
  [ ("product_index", PStr index);
    ("name", PStr "Gadget");
    ("buying_price", price);
    ("selling_price", PFloat float_2_5);
    ("quantity", PInt 3);
    ("alert_config", config_value (PInt 5) (PInt 20)) ].

(** A table of [n] products, numbered from [k] *)
Fixpoint stock (k : Z) (n : nat) : list Product :=
  match n with
  | O => []
  | S n' =>
      {| id := k;
         product_index := PStr ("P-" ++ NilZero.string_of_uint (N.to_uint (Z.to_N k)));
         name := PStr "Item";
         buying_price := float_one;
         selling_price := float_2_5;
         quantity := k;
         alert_config := "{}";
         description := PNone;
         supplier_name := PNone;
         last_updated := 100;
         category := PNone |} :: stock (k + 1) n'
  end.

Definition warehouse : Db := {| rows := stock 1 60; next_id := 61 |}.

(** ** Predicates of the statements *)

(** The primary key: the ids of the stored rows are pairwise distinct and
    below the next value of the sequence. *)
Definition primary_key (db : Db) : Prop :=
  NoDup (map id (rows db)) /\ forall p, In p (rows db) -> id p < next_id db.

(** The labels of [stock_alert] from the emptiest to the fullest shelf *)
Definition stock_rank (label : string) : Z :=
  if String.eqb label "Out of Stock" then 0
  else if String.eqb label "Low Stock" then 1
  else if String.eqb label "Moderate Stock" then 2
  else if String.eqb label "In Stock" then 3
  else -1.

(** The page numbers [1 .. n] *)
Definition page_numbers (n : Z) : list Z :=
  map Z.of_nat (seq 1 (Z.to_nat n)).

(** The "data" array of a list answer, and its "has_next" *)
Definition listed (r : response) : list pydict :=
  match fst r with
  | ListPayload data _ => data
  | _ => []
  end.

Definition listed_has_next (r : response) : bool :=
  match fst r with
  | ListPayload _ pagination => has_next pagination
  | _ => false
  end.

Definition listed_pages (r : response) : Z :=
  match fst r with
  | ListPayload _ pagination => pages pagination
  | _ => 0
  end.

(** A second double, which also knows a config with the thresholds the
    wrong way round *)
Definition more_configs : list (string * pyval) :=
  (config_text "20" "5", config_value (PInt 20) (PInt 5)) :: known_configs.

Definition demo_more : Collaborators := {|
  json_loads := fun s =>
    match lookup s more_configs with
    | Some v => inr v
    | None => inl JSONDecodeError
    end;
  json_dumps := demo_dumps;
  float_of_string := fun _ => None;
  int_of_string := demo_int;
  isoformat := fun _ => "1970-01-01T00:00:00";
  db_accepts := fun _ => true
|}.
Example demo_int_42 : demo_int " 42 " = Some 42.
Proof. reflexivity. Qed.
Example demo_int_neg : demo_int "-1_000" = Some (-1000).
Proof. reflexivity. Qed.
Example demo_int_bad :
  map demo_int ["abc"; ""; "1__0"; "_1"; "1_"; "+ 1"; "1.5"]
  = map (fun _ => None) [1; 2; 3; 4; 5; 6; 7].
Proof. reflexivity. Qed.
Example demo_int_control_character :
  demo_int (String (ascii_of_nat 28) "12") = None.
Proof. reflexivity. Qed.
Example float_of_int_3 : float_of_int 3 = inr (S754_finite false 6755399441055744 (-51)).
Proof. reflexivity. Qed.
Example float_of_int_huge : float_of_int (10 ^ 400) = inl OverflowError.
Proof. vm_compute. reflexivity. Qed.
Example int_of_float_trunc :
  int_of_float (S754_finite true 7 (-1)) = inr (-3).
Proof. reflexivity. Qed.

(** ** Order facts on [realval] *)

Lemma rv_le_lt_false (a b c : realval) :
  rv_le a b = true -> rv_lt b c = true -> rv_le c a = false.
Proof.
  destruct a as [|[|]|x], b as [|[|]|y], c as [|[|]|z]; simpl;
    try discriminate; try reflexivity; intros Hab Hbc.
  apply Qle_bool_iff in Hab.
  apply negb_true_iff in Hbc.
  destruct (Qle_bool z x) eqn:Hzx; [|reflexivity].
  apply Qle_bool_iff in Hzx.
  assert (Hzy : (z <= y)%Q) by (eapply Qle_trans; eassumption).
  apply Qle_bool_iff in Hzy. congruence.
Qed.

Lemma rv_le_int (a b : Z) :
  rv_le (RFin (inject_Z a)) (RFin (inject_Z b)) = (a <=? b).
Proof.
  simpl. destruct (a <=? b) eqn:E.
  - apply Qle_bool_iff. rewrite <- Zle_Qle. apply Z.leb_le, E.
  - destruct (Qle_bool (inject_Z a) (inject_Z b)) eqn:F; [|reflexivity].
    apply Qle_bool_iff in F. rewrite <- Zle_Qle in F.
    apply Z.leb_le in F. congruence.
Qed.

(** ** The stock-alert classifier *)

Section Classifier.
Context {env : Collaborators}.

(** On a config that decodes to an object, the body of [stock_alert] is the
    ladder of comparisons on the two thresholds (or their defaults). *)
Lemma stock_alert_try_object (self : Product) (d : pydict) :
  json_loads (alert_config self) = inr (PDict d) ->
  stock_alert_try self =
    (if quantity self <=? 0 then ret "Out of Stock"
     else
       bind (int_le (quantity self) (dict_get d "low_stock" (PInt 0)))
         (fun le_low =>
            if le_low then ret "Low Stock"
            else
              bind (int_ge (quantity self) (dict_get d "in_stock" (PInt 999999)))
                (fun ge_in =>
                   if ge_in then ret "In Stock" else ret "Moderate Stock"))).
Proof.
  intros Hd. unfold stock_alert_try. rewrite Hd. reflexivity.
Qed.

Lemma stock_alert_numeric (self : Product) (d : pydict) (l i : realval) :
  json_loads (alert_config self) = inr (PDict d) ->
  real_of (dict_get d "low_stock" (PInt 0)) = Some l ->
  real_of (dict_get d "in_stock" (PInt 999999)) = Some i ->
  stock_alert self =
    if quantity self <=? 0 then "Out of Stock"
    else if rv_le (RFin (inject_Z (quantity self))) l then "Low Stock"
    else if rv_le i (RFin (inject_Z (quantity self))) then "In Stock"
    else "Moderate Stock".
Proof.
  intros Hd Hl Hi. unfold stock_alert.
  rewrite (stock_alert_try_object _ _ Hd).
  unfold int_le, int_ge, bind, ret. rewrite Hl, Hi.
  destruct (quantity self <=? 0); [reflexivity|].
  destruct (rv_le (RFin (inject_Z (quantity self))) l); [reflexivity|].
  destruct (rv_le i (RFin (inject_Z (quantity self)))); reflexivity.
Qed.

(** C1 (as amended). For a config that decodes to an object whose
    thresholds (or their defaults 0 and 999999) are numbers [l] and [i]
    with [l < i], and every quantity [q]: the label is "Out of Stock" iff
    [q <= 0]; "Low Stock" iff [0 < q <= l]; "In Stock" iff [0 < q] and
    [q >= i]; "Moderate Stock" iff [0 < q], not [q <= l] and not [q >= i].
    The rule [q <= 0] comes first, so it also wins when [i <= 0]. *)
Theorem stock_alert_classifies (self : Product) (d : pydict) (l i : realval) :
  json_loads (alert_config self) = inr (PDict d) ->
  real_of (dict_get d "low_stock" (PInt 0)) = Some l ->
  real_of (dict_get d "in_stock" (PInt 999999)) = Some i ->
  rv_lt l i = true ->
  let q := quantity self in
  let qv := RFin (inject_Z q) in
  (stock_alert self = "Out of Stock" <-> q <= 0) /\
  (stock_alert self = "Low Stock" <-> 0 < q /\ rv_le qv l = true) /\
  (stock_alert self = "In Stock" <-> 0 < q /\ rv_le i qv = true) /\
  (stock_alert self = "Moderate Stock" <->
     0 < q /\ rv_le qv l = false /\ rv_le i qv = false).
Proof.
  intros Hd Hl Hi Hlt q qv.
  rewrite (stock_alert_numeric _ _ _ _ Hd Hl Hi). fold q. fold qv.
  destruct (q <=? 0) eqn:Hq0.
  - apply Z.leb_le in Hq0.
    repeat split; intros; try discriminate; try lia;
      match goal with K : _ /\ _ |- _ => destruct K; lia end.
  - apply Z.leb_gt in Hq0.
    destruct (rv_le qv l) eqn:Hql.
    + pose proof (rv_le_lt_false _ _ _ Hql Hlt) as Hiq.
      repeat split; intros; try discriminate; try lia; try assumption;
        match goal with
        | K : _ /\ _ /\ _ |- _ => destruct K as (_ & ? & _); congruence
        | K : _ /\ _ |- _ => destruct K; congruence
        end.
    + destruct (rv_le i qv) eqn:Hiq;
        repeat split; intros; try discriminate; try lia; try assumption;
        try reflexivity;
        match goal with
        | K : _ /\ _ /\ _ |- _ => destruct K as (_ & ? & ?); congruence
        | K : _ /\ _ |- _ => destruct K; congruence
        end.
Qed.

(** The label on any config that decodes to an object: a threshold that
    is not a number costs the error label only where the ladder compares
    against it. *)
Lemma stock_alert_object (self : Product) (d : pydict) :
  json_loads (alert_config self) = inr (PDict d) ->
  stock_alert self =
    if quantity self <=? 0 then "Out of Stock"
    else
      match real_of (dict_get d "low_stock" (PInt 0)) with
      | None => "Alert Config Error"
      | Some l =>
          if rv_le (RFin (inject_Z (quantity self))) l then "Low Stock"
          else
            match real_of (dict_get d "in_stock" (PInt 999999)) with
            | None => "Alert Config Error"
            | Some i =>
                if rv_le i (RFin (inject_Z (quantity self))) then "In Stock"
                else "Moderate Stock"
            end
      end.
Proof.
  intros Hd. unfold stock_alert.
  rewrite (stock_alert_try_object _ _ Hd).
  unfold int_le, int_ge, bind, ret.
  destruct (quantity self <=? 0); [reflexivity|].
  destruct (real_of (dict_get d "low_stock" (PInt 0))) as [l|]; [|reflexivity].
  destruct (rv_le (RFin (inject_Z (quantity self))) l); [reflexivity|].
  destruct (real_of (dict_get d "in_stock" (PInt 999999))) as [i|]; [|reflexivity].
  destruct (rv_le i (RFin (inject_Z (quantity self)))); reflexivity.
Qed.

Lemma stock_alert_not_object (self : Product) :
  (forall d, json_loads (alert_config self) <> inr (PDict d)) ->
  stock_alert self = "Alert Config Error".
Proof.
  intros Hno. unfold stock_alert, stock_alert_try.
  destruct (json_loads (alert_config self)) as [e|config]; [reflexivity|].
  destruct config; try reflexivity.
  exfalso. eapply Hno. reflexivity.
Qed.

(** C2 (as amended). [stock_alert] raises nothing and returns one of the
    five labels. It is "Alert Config Error" whenever [alert_config] is not
    decodable or decodes to something other than an object. When it decodes
    to an object, a quantity [q <= 0] gives "Out of Stock" whatever the
    thresholds hold, and the label is "Alert Config Error" exactly when
    [0 < q] and a comparison is reached against a threshold that is not a
    number: [low_stock], or [in_stock] once [q <= low_stock] is false. *)
Theorem stock_alert_error_label (self : Product) :
  In (stock_alert self)
     ["Out of Stock"; "Low Stock"; "Moderate Stock"; "In Stock";
      "Alert Config Error"] /\
  ((forall d, json_loads (alert_config self) <> inr (PDict d)) ->
   stock_alert self = "Alert Config Error") /\
  (forall d, json_loads (alert_config self) = inr (PDict d) ->
     let low := dict_get d "low_stock" (PInt 0) in
     let high := dict_get d "in_stock" (PInt 999999) in
     let q := quantity self in
     (q <= 0 -> stock_alert self = "Out of Stock") /\
     (stock_alert self = "Alert Config Error" <->
        0 < q /\
        (real_of low = None \/
         (int_le q low = inr false /\ real_of high = None)))).
Proof.
  split; [|split].
  - destruct (json_loads (alert_config self)) as [e|config] eqn:Hd.
    + rewrite stock_alert_not_object by (intros d K; congruence).
      simpl; tauto.
    + destruct config;
        try (rewrite stock_alert_not_object by (intros d' K; congruence);
             simpl; tauto).
      rewrite (stock_alert_object _ _ Hd).
      destruct (quantity self <=? 0); [simpl; tauto|].
      destruct (real_of (dict_get d "low_stock" (PInt 0))) as [l|];
        [|simpl; tauto].
      destruct (rv_le (RFin (inject_Z (quantity self))) l); [simpl; tauto|].
      destruct (real_of (dict_get d "in_stock" (PInt 999999))) as [i|];
        [|simpl; tauto].
      destruct (rv_le i (RFin (inject_Z (quantity self)))); simpl; tauto.
  - apply stock_alert_not_object.
  - intros d Hd low high q.
    rewrite (stock_alert_object _ _ Hd). fold low high q.
    unfold int_le, ret.
    destruct (q <=? 0) eqn:Hq.
    + apply Z.leb_le in Hq. split; [reflexivity|].
      split; [discriminate | intros [K _]; lia].
    + apply Z.leb_gt in Hq. split; [lia|].
      destruct (real_of low) as [l|].
      * destruct (rv_le (RFin (inject_Z q)) l).
        -- split; [discriminate|].
           intros [_ [K|[K _]]]; discriminate.
        -- destruct (real_of high) as [i|].
           ++ split.
              ** destruct (rv_le i (RFin (inject_Z q))); discriminate.
              ** intros [_ [K|[_ K]]]; discriminate.
           ++ split; [|reflexivity]. intros _. split; [assumption|].
              right. split; reflexivity.
      * split; [|reflexivity]. intros _. split; [assumption|].
        left. reflexivity.
Qed.

End Classifier.

(** With integer thresholds the comparisons are those of [Z]. *)
Corollary stock_alert_integers {env : Collaborators} (self : Product) (d : pydict)
    (l i : Z) :
  json_loads (alert_config self) = inr (PDict d) ->
  lookup "low_stock" d = Some (PInt l) ->
  lookup "in_stock" d = Some (PInt i) ->
  l < i ->
  let q := quantity self in
  (stock_alert self = "Out of Stock" <-> q <= 0) /\
  (stock_alert self = "Low Stock" <-> 0 < q <= l) /\
  (stock_alert self = "In Stock" <-> 0 < q /\ i <= q) /\
  (stock_alert self = "Moderate Stock" <-> l < q < i /\ 0 < q).
Proof.
  intros Hd Hl Hi Hlt q.
  assert (Hrl : real_of (dict_get d "low_stock" (PInt 0)) = Some (RFin (inject_Z l)))
    by (unfold dict_get; rewrite Hl; reflexivity).
  assert (Hri : real_of (dict_get d "in_stock" (PInt 999999)) = Some (RFin (inject_Z i)))
    by (unfold dict_get; rewrite Hi; reflexivity).
  rewrite (stock_alert_numeric _ _ _ _ Hd Hrl Hri), !rv_le_int. fold q.
  destruct (q <=? 0) eqn:E0; [apply Z.leb_le in E0 | apply Z.leb_gt in E0].
  { repeat split; intros; try discriminate; lia. }
  destruct (q <=? l) eqn:El; [apply Z.leb_le in El | apply Z.leb_gt in El].
  { repeat split; intros; try discriminate; lia. }
  destruct (i <=? q) eqn:Ei; [apply Z.leb_le in Ei | apply Z.leb_gt in Ei];
    repeat split; intros; try discriminate; lia.
Qed.

Section ClassifierExamples.
#[local] Existing Instance demo.

Example stock_alert_ladder :
  map (fun q => stock_alert (widget q (config_text "5" "20"))) [0; 3; 5; 6; 19; 20; 21]
  = ["Out of Stock"; "Low Stock"; "Low Stock"; "Moderate Stock";
     "Moderate Stock"; "In Stock"; "In Stock"].
Proof. reflexivity. Qed.

Example stock_alert_not_json :
  stock_alert (widget 3 "low=5") = "Alert Config Error".
Proof. reflexivity. Qed.

Lemma stock_alert_classifies_witness :
  let self := widget 7 (config_text "5" "20") in
  (stock_alert self = "Out of Stock" <-> 7 <= 0) /\
  (stock_alert self = "Low Stock" <->
     0 < 7 /\ rv_le (RFin (inject_Z 7)) (RFin (inject_Z 5)) = true) /\
  (stock_alert self = "In Stock" <->
     0 < 7 /\ rv_le (RFin (inject_Z 20)) (RFin (inject_Z 7)) = true) /\
  (stock_alert self = "Moderate Stock" <->
     0 < 7 /\ rv_le (RFin (inject_Z 7)) (RFin (inject_Z 5)) = false
           /\ rv_le (RFin (inject_Z 20)) (RFin (inject_Z 7)) = false).
Proof.
  exact (stock_alert_classifies (widget 7 (config_text "5" "20"))
           [("low_stock", PInt 5); ("in_stock", PInt 20)]
           (RFin (inject_Z 5)) (RFin (inject_Z 20))
           eq_refl eq_refl eq_refl eq_refl).
Defined.

(** C1 as stated fails when [in_stock <= 0]: with low_stock = -1 and
    in_stock = 0 (so [l < i]) and quantity 0, [q >= i] holds and the label
    is "Out of Stock", not "In Stock". *)
Lemma stock_alert_in_stock_rule_shadowed :
  let self := widget 0 (config_text "-1" "0") in
  json_loads (alert_config self) = inr (config_value (PInt (-1)) (PInt 0)) /\
  -1 < 0 /\
  ~ (stock_alert self = "In Stock" <-> quantity self >= 0).
Proof.
  split; [reflexivity|]. split; [lia|].
  intros [_ K]. assert (E : quantity (widget 0 (config_text "-1" "0")) >= 0)
    by (simpl; lia).
  specialize (K E). vm_compute in K. discriminate K.
Qed.

Lemma stock_alert_error_label_witness :
  stock_alert (widget 3 "low=5") = "Alert Config Error" /\
  stock_alert (widget 0 (config_text (dq ++ "abc" ++ dq) "10")) = "Out of Stock" /\
  stock_alert (widget 3 (config_text (dq ++ "abc" ++ dq) "10"))
    = "Alert Config Error".
Proof.
  split; [|split].
  - apply (proj1 (proj2 (stock_alert_error_label (widget 3 "low=5")))).
    intros d. vm_compute. discriminate.
  - refine (proj1 (proj2 (proj2 (stock_alert_error_label
               (widget 0 (config_text (dq ++ "abc" ++ dq) "10"))))
               [("low_stock", PStr "abc"); ("in_stock", PInt 10)] _) _).
    + reflexivity.
    + simpl. lia.
  - refine (proj2 (proj2 (proj2 (proj2 (stock_alert_error_label
               (widget 3 (config_text (dq ++ "abc" ++ dq) "10"))))
               [("low_stock", PStr "abc"); ("in_stock", PInt 10)] _)) _).
    + reflexivity.
    + split; [simpl; lia|]. left. reflexivity.
Defined.

(** C2 as stated fails: the config [{"low_stock": "abc", "in_stock": 10}]
    has a threshold that is not a number, and at quantity 0 the label is
    "Out of Stock": the rule [q <= 0] returns before any threshold is
    compared. *)
Lemma stock_alert_bad_threshold_unseen :
  let self := widget 0 (config_text (dq ++ "abc" ++ dq) "10") in
  json_loads (alert_config self)
    = inr (config_value (PStr "abc") (PInt 10)) /\
  real_of (PStr "abc") = None /\
  stock_alert self = "Out of Stock" /\
  stock_alert self <> "Alert Config Error".
Proof.
  repeat split. vm_compute. discriminate.
Qed.

End ClassifierExamples.

(** ** Strings and lists *)

Lemma append_assoc (a b c : string) : ((a ++ b) ++ c = a ++ (b ++ c))%string.
Proof.
  induction a as [|ch a IH]; simpl; [reflexivity | now rewrite IH].
Qed.

(** Every element of a joined list occurs in the joined text. *)
Lemma concat_mentions (sep : string) (l : list string) (f : string) :
  In f l -> exists pre post, String.concat sep l = (pre ++ f ++ post)%string.
Proof.
  induction l as [|x l IH]; intros Hin; [contradiction|].
  destruct Hin as [->|Hin].
  - destruct l as [|y l].
    + exists "", "". simpl.
      clear IH. induction f as [|c f IHf]; simpl; [reflexivity | now rewrite <- IHf].
    + exists "", (sep ++ String.concat sep (y :: l))%string. reflexivity.
  - destruct (IH Hin) as (pre & post & E).
    destruct l as [|y l]; [contradiction|].
    exists (x ++ sep ++ pre)%string, post.
    change (String.concat sep (x :: y :: l))
      with (x ++ sep ++ String.concat sep (y :: l))%string.
    rewrite E. now rewrite !append_assoc.
Qed.

Lemma find_map_assign (product_id : Z) (g : Product -> Product) (l : list Product) :
  (forall r, id (g r) = id r) ->
  find (fun p => id p =? product_id)
       (map (fun r => if id r =? product_id then g r else r) l)
  = option_map g (find (fun p => id p =? product_id) l).
Proof.
  intros Hid. induction l as [|r l IH]; [reflexivity|].
  simpl. destruct (id r =? product_id) eqn:E.
  - rewrite Hid, E. reflexivity.
  - rewrite E. exact IH.
Qed.

Lemma find_map_other (product_id k : Z) (g : Product -> Product) (l : list Product) :
  k <> product_id ->
  (forall r, id (g r) = id r) ->
  find (fun p => id p =? k)
       (map (fun r => if id r =? product_id then g r else r) l)
  = find (fun p => id p =? k) l.
Proof.
  intros Hk Hid. induction l as [|r l IH]; [reflexivity|].
  simpl. destruct (id r =? product_id) eqn:E.
  - rewrite Hid. apply Z.eqb_eq in E.
    replace (id r =? k) with false by (symmetry; apply Z.eqb_neq; lia).
    exact IH.
  - destruct (id r =? k); [reflexivity | exact IH].
Qed.

(** ** Creating a product *)

Section Create.
Context {env : Collaborators}.

(** The required fields that are absent are exactly the ones reported. *)
Lemma missing_fields_spec (data : pydict) (f : string) :
  In f (missing_fields data) <-> In f required_fields /\ py_in f data = false.
Proof.
  unfold missing_fields. rewrite filter_In, negb_true_iff. reflexivity.
Qed.

Lemma missing_fields_nil (data : pydict) (f : string) :
  missing_fields data = [] -> In f required_fields ->
  exists v, lookup f data = Some v.
Proof.
  intros Hnil Hf.
  destruct (lookup f data) as [v|] eqn:E; [eauto|].
  assert (K : In f (missing_fields data)).
  { apply missing_fields_spec. split; [exact Hf|]. unfold py_in. now rewrite E. }
  rewrite Hnil in K. contradiction.
Qed.

Lemma create_missing (data : pydict) (now : Z) (db : Db) :
  missing_fields data <> [] ->
  create_new_product (Json data) now db =
    (error_response
       (Text ("Missing fields: " ++ String.concat ", " (missing_fields data)))
       400,
     db).
Proof.
  intros Hne. unfold create_new_product, create_try.
  destruct (missing_fields data) as [|f l]; [contradiction | reflexivity].
Qed.

(** C5. A JSON create request in which two or more required fields are
    absent is answered 400 with the message "Missing fields: " followed by
    the absent required fields joined by ", ": each absent required field
    occurs in the message, and the store is unchanged. *)
Theorem create_reports_every_missing_field (data : pydict) (now : Z) (db : Db) :
  (2 <= List.length (missing_fields data))%nat ->
  let text := ("Missing fields: " ++ String.concat ", " (missing_fields data))%string in
  create_new_product (Json data) now db = (error_response (Text text) 400, db) /\
  (forall f, In f required_fields -> py_in f data = false ->
     exists pre post, text = (pre ++ f ++ post)%string).
Proof.
  intros Hlen text. split.
  - apply create_missing. intros E. rewrite E in Hlen. simpl in Hlen. lia.
  - intros f Hreq Habs.
    assert (Hin : In f (missing_fields data))
      by (apply missing_fields_spec; auto).
    destruct (concat_mentions ", " _ _ Hin) as (pre & post & E).
    exists ("Missing fields: " ++ pre)%string, post.
    unfold text. rewrite E. now rewrite append_assoc.
Qed.

(** The body of [create_new_product] once the six required fields are
    known to be present. *)
Lemma create_try_complete (data : pydict) (now : Z) (db : Db)
    (vi vn vb vs vq vc : pyval) :
  lookup "product_index" data = Some vi ->
  lookup "name" data = Some vn ->
  lookup "buying_price" data = Some vb ->
  lookup "selling_price" data = Some vs ->
  lookup "quantity" data = Some vq ->
  lookup "alert_config" data = Some vc ->
  create_try (Json data) now db =
    hbind (try_except (json_dumps vc)
             (fun e => is_TypeError e || is_ValueError e)
             (error_response (Text "Invalid alert_config format") 400))
      (fun text =>
         match first_by_index db vi with
         | Some _ =>
             Return (error_response (Text "Product index already exists") 400)
         | None =>
             hbind (lift (py_float float_of_string vb)) (fun buying =>
             hbind (lift (py_float float_of_string vs)) (fun selling =>
             hbind (lift (py_int vq)) (fun q =>
               let new_product :=
                 {| id := next_id db;
                    product_index := vi;
                    name := vn;
                    buying_price := buying;
                    selling_price := selling;
                    quantity := q;
                    alert_config := text;
                    description := dict_get data "description" (PStr "");
                    supplier_name := dict_get data "supplier_name" (PStr "");
                    last_updated := now;
                    category := dict_get data "category" (PStr "") |} in
               if db_accepts new_product
               then Next ((ProductPayload "Product created successfully"
                             (to_dict new_product), 201),
                          insert_row db new_product)
               else Raise SQLAlchemyError)))
         end).
Proof.
  intros Hi Hn Hb Hs Hq Hc.
  unfold create_try.
  assert (Hm : missing_fields data = []).
  { unfold missing_fields, required_fields, py_in. simpl.
    now rewrite Hi, Hn, Hb, Hs, Hq, Hc. }
  rewrite Hm. unfold getitem. rewrite Hi, Hn, Hb, Hs, Hq, Hc.
  reflexivity.
Qed.

(** [float] and [int] raise nothing but ValueError, TypeError and
    OverflowError. *)
Lemma py_float_raises (v : pyval) (e : exn) :
  py_float float_of_string v = inl e ->
  e = ValueError \/ e = TypeError \/ e = OverflowError.
Proof.
  destruct v as [|b|z|f|s|l|d]; simpl; unfold raise, ret;
    try (intros K; inversion K; tauto); try discriminate.
  - unfold float_of_int.
    destruct (binary_normalize prec emax z 0 false); unfold raise, ret;
      intros K; inversion K; tauto.
  - destruct (float_of_string s); unfold raise, ret; intros K; inversion K; tauto.
Qed.

Lemma py_int_raises (v : pyval) (e : exn) :
  py_int v = inl e -> e = ValueError \/ e = TypeError \/ e = OverflowError.
Proof.
  destruct v as [|b|z|f|s|l|d]; simpl; unfold raise, ret;
    try (intros K; inversion K; tauto); try discriminate.
  - destruct f; simpl; unfold raise, ret; intros K; inversion K; tauto.
  - destruct (int_of_string s); unfold raise, ret; intros K; inversion K; tauto.
Qed.

(** The answer to a complete request whose [alert_config] encodes and
    whose [product_index] is new, by the outcome of the three coercions in
    the order the constructor call evaluates them. *)
Lemma create_coerces (data : pydict) (now : Z) (db : Db)
    (vi vn vb vs vq vc : pyval) (text : string) :
  lookup "product_index" data = Some vi ->
  lookup "name" data = Some vn ->
  lookup "buying_price" data = Some vb ->
  lookup "selling_price" data = Some vs ->
  lookup "quantity" data = Some vq ->
  lookup "alert_config" data = Some vc ->
  json_dumps vc = inr text ->
  first_by_index db vi = None ->
  let coerced :=
    bind (py_float float_of_string vb) (fun b =>
    bind (py_float float_of_string vs) (fun s =>
    bind (py_int vq) (fun q => ret (b, s, q)))) in
  match coerced with
  | inl e =>
      create_new_product (Json data) now db =
        (if is_ValueError e
         then error_response (WithExn "Invalid data format: " e) 400
         else error_response (WithExn "Unexpected error: " e) 500,
         db)
  | inr (b, s, q) =>
      let new_product :=
        {| id := next_id db;
           product_index := vi;
           name := vn;
           buying_price := b;
           selling_price := s;
           quantity := q;
           alert_config := text;
           description := dict_get data "description" (PStr "");
           supplier_name := dict_get data "supplier_name" (PStr "");
           last_updated := now;
           category := dict_get data "category" (PStr "") |} in
      create_new_product (Json data) now db =
        if db_accepts new_product
        then ((ProductPayload "Product created successfully"
                 (to_dict new_product), 201),
              insert_row db new_product)
        else (error_response (WithExn "Database error: " SQLAlchemyError) 500,
              lose_id db)
  end.
Proof.
  intros Hi Hn Hb Hs Hq Hc Hdumps Hnew coerced. unfold coerced.
  unfold create_new_product.
  rewrite (create_try_complete data now db _ _ _ _ _ _ Hi Hn Hb Hs Hq Hc).
  rewrite Hdumps, Hnew. unfold try_except, hbind, lift, bind, ret.
  destruct (py_float float_of_string vb) as [e|b] eqn:Eb.
  { destruct (py_float_raises _ _ Eb) as [->|[->| ->]]; reflexivity. }
  destruct (py_float float_of_string vs) as [e|s] eqn:Es.
  { destruct (py_float_raises _ _ Es) as [->|[->| ->]]; reflexivity. }
  destruct (py_int vq) as [e|q] eqn:Eq.
  { destruct (py_int_raises _ _ Eq) as [->|[->| ->]]; reflexivity. }
  destruct (db_accepts _); reflexivity.
Qed.

(** A value that [float] rejects with TypeError (null, a list, an object)
    goes to [except Exception]: the answer is 500, whatever the
    collaborators are. *)
Lemma create_type_error_is_internal (data : pydict) (now : Z) (db : Db)
    (vi vn vb vs vq vc : pyval) (text : string) :
  lookup "product_index" data = Some vi ->
  lookup "name" data = Some vn ->
  lookup "buying_price" data = Some vb ->
  lookup "selling_price" data = Some vs ->
  lookup "quantity" data = Some vq ->
  lookup "alert_config" data = Some vc ->
  json_dumps vc = inr text ->
  first_by_index db vi = None ->
  py_float float_of_string vb = inl TypeError ->
  create_new_product (Json data) now db =
    (error_response (WithExn "Unexpected error: " TypeError) 500, db).
Proof.
  intros Hi Hn Hb Hs Hq Hc Hdumps Hnew Hraise.
  pose proof (create_coerces data now db _ _ _ _ _ _ text
                Hi Hn Hb Hs Hq Hc Hdumps Hnew) as K.
  cbv zeta in K. rewrite Hraise in K. exact K.
Qed.

(** C4 (as amended). A JSON create request that has all six required
    fields and an [alert_config] that encodes, and whose [product_index] is
    the string [product_index] of a stored product, is answered 400
    "Product index already exists", and the store is unchanged. *)
Theorem create_duplicate_index_conflict (data : pydict) (now : Z) (db : Db)
    (s : string) (p : Product) (vc : pyval) (text : string) :
  missing_fields data = [] ->
  lookup "alert_config" data = Some vc ->
  json_dumps vc = inr text ->
  lookup "product_index" data = Some (PStr s) ->
  In p (rows db) ->
  product_index p = PStr s ->
  create_new_product (Json data) now db =
    (error_response (Text "Product index already exists") 400, db).
Proof.
  intros Hm Hc Hdumps Hi Hin Hp.
  destruct (missing_fields_nil data "name" Hm) as (vn & Hn);
    [simpl; tauto|].
  destruct (missing_fields_nil data "buying_price" Hm) as (vb & Hb);
    [simpl; tauto|].
  destruct (missing_fields_nil data "selling_price" Hm) as (vs & Hs);
    [simpl; tauto|].
  destruct (missing_fields_nil data "quantity" Hm) as (vq & Hq);
    [simpl; tauto|].
  unfold create_new_product.
  rewrite (create_try_complete data now db _ _ _ _ _ _ Hi Hn Hb Hs Hq Hc).
  rewrite Hdumps. unfold try_except, hbind.
  destruct (first_by_index db (PStr s)) as [found|] eqn:Ef; [reflexivity|].
  exfalso. unfold first_by_index in Ef.
  pose proof (find_none _ _ Ef p Hin) as K. simpl in K.
  rewrite Hp in K. simpl in K. rewrite String.eqb_refl in K. discriminate.
Qed.

(** A create that is not answered 201 leaves the store as it was, but
    for the id a rejected INSERT has used up; one that is answered 201
    appended one row built from the request. *)
Lemma create_inversion (data : pydict) (now : Z) (db : Db) :
  let '(r, db') := create_new_product (Json data) now db in
  (snd r <> 201 /\ (db' = db \/ (db' = lose_id db /\ snd r = 500))) \/
  (exists vi vn b s q text,
     let new_product :=
       {| id := next_id db;
          product_index := vi;
          name := vn;
          buying_price := b;
          selling_price := s;
          quantity := q;
          alert_config := text;
          description := dict_get data "description" (PStr "");
          supplier_name := dict_get data "supplier_name" (PStr "");
          last_updated := now;
          category := dict_get data "category" (PStr "") |} in
     r = (ProductPayload "Product created successfully" (to_dict new_product),
          201) /\
     db' = insert_row db new_product).
Proof.
  destruct (missing_fields data) as [|f0 l0] eqn:Hm.
  2:{ rewrite create_missing by (rewrite Hm; discriminate).
      left. split; [simpl; lia | left; reflexivity]. }
  destruct (missing_fields_nil data "product_index" Hm) as (vi & Hi);
    [simpl; tauto|].
  destruct (missing_fields_nil data "name" Hm) as (vn & Hn);
    [simpl; tauto|].
  destruct (missing_fields_nil data "buying_price" Hm) as (vb & Hb);
    [simpl; tauto|].
  destruct (missing_fields_nil data "selling_price" Hm) as (vs & Hs);
    [simpl; tauto|].
  destruct (missing_fields_nil data "quantity" Hm) as (vq & Hq);
    [simpl; tauto|].
  destruct (missing_fields_nil data "alert_config" Hm) as (vc & Hc);
    [simpl; tauto|].
  destruct (json_dumps vc) as [e|text] eqn:Hdumps.
  { unfold create_new_product.
    rewrite (create_try_complete data now db _ _ _ _ _ _ Hi Hn Hb Hs Hq Hc).
    rewrite Hdumps. unfold try_except, hbind.
    destruct e; simpl; left;
      (split; [simpl; lia
             | first [left; reflexivity | right; split; reflexivity]]). }
  destruct (first_by_index db vi) as [found|] eqn:Ef.
  { unfold create_new_product.
    rewrite (create_try_complete data now db _ _ _ _ _ _ Hi Hn Hb Hs Hq Hc).
    rewrite Hdumps, Ef. simpl. left. split; [simpl; lia | left; reflexivity]. }
  pose proof (create_coerces data now db _ _ _ _ _ _ text
                Hi Hn Hb Hs Hq Hc Hdumps Ef) as K.
  cbv zeta in K.
  destruct (bind (py_float float_of_string vb) _) as [e|[[b s] q]].
  - rewrite K. left.
    destruct (is_ValueError e); (split; [simpl; lia | left; reflexivity]).
  - rewrite K. destruct (db_accepts _).
    + right. exists vi, vn, b, s, q, text. split; reflexivity.
    + left. split; [simpl; lia | right; split; reflexivity].
Qed.

(** C10. In the record a successful create stores, each of [description],
    [supplier_name] and [category] that the request omits is the empty
    string. *)
Theorem create_omitted_optional_is_empty (data : pydict) (now : Z) (db : Db)
    (r : response) (db' : Db) :
  create_new_product (Json data) now db = (r, db') ->
  snd r = 201 ->
  exists p,
    db' = insert_row db p /\
    r = (ProductPayload "Product created successfully" (to_dict p), 201) /\
    (py_in "description" data = false -> description p = PStr "") /\
    (py_in "supplier_name" data = false -> supplier_name p = PStr "") /\
    (py_in "category" data = false -> category p = PStr "").
Proof.
  intros Hrun Hstatus.
  pose proof (create_inversion data now db) as K. rewrite Hrun in K.
  destruct K as [[Hbad _]|(vi & vn & b & s & q & text & Hr & Hdb)];
    [contradiction|].
  eexists. split; [exact Hdb|]. split; [exact Hr|].
  unfold py_in, dict_get. simpl.
  repeat split; intros Habs;
    match goal with
    | |- match lookup ?k data with _ => _ end = _ =>
        destruct (lookup k data); [discriminate | reflexivity]
    end.
Qed.

End Create.

Section CreateExamples.
#[local] Existing Instance demo.

Example create_gadget :
  create_new_product (Json (complete_body "P-2" (PInt 1))) 200 shelf
  = let gadget :=
      {| id := 2;
         product_index := PStr "P-2";
         name := PStr "Gadget";
         buying_price := float_one;
         selling_price := float_2_5;
         quantity := 3;
         alert_config := config_text "5" "20";
         description := PStr "";
         supplier_name := PStr "";
         last_updated := 200;
         category := PStr "" |} in
    ((ProductPayload "Product created successfully" (to_dict gadget), 201),
     {| rows := [widget 5 (config_text "5" "20"); gadget]; next_id := 3 |}).
Proof. reflexivity. Qed.

Lemma create_reports_every_missing_field_witness :
  let data := [("product_index", PStr "P-2"); ("name", PStr "Gadget");
               ("buying_price", PInt 1); ("selling_price", PInt 2)] in
  create_new_product (Json data) 200 shelf
  = (error_response (Text "Missing fields: quantity, alert_config") 400, shelf).
Proof.
  refine (proj1 (create_reports_every_missing_field
                   [("product_index", PStr "P-2"); ("name", PStr "Gadget");
                    ("buying_price", PInt 1); ("selling_price", PInt 2)]
                   200 shelf _)).
  simpl. lia.
Defined.

Lemma create_duplicate_index_conflict_witness :
  create_new_product (Json (complete_body "P-1" (PInt 1))) 200 shelf
  = (error_response (Text "Product index already exists") 400, shelf).
Proof.
  refine (create_duplicate_index_conflict
            (complete_body "P-1" (PInt 1)) 200 shelf "P-1"
            (widget 5 (config_text "5" "20"))
            (config_value (PInt 5) (PInt 20)) (config_text "5" "20")
            _ _ _ _ _ _).
  - reflexivity.
  - reflexivity.
  - reflexivity.
  - reflexivity.
  - simpl. left. reflexivity.
  - reflexivity.
Defined.

(** C4 as stated fails: a request that repeats the stored index "P-1" but
    lacks other required fields is answered "Missing fields: ...", the
    validation error, not the conflict. *)
Lemma create_duplicate_index_incomplete :
  let req := Json [("product_index", PStr "P-1")] in
  (exists p, In p (rows shelf) /\ product_index p = PStr "P-1") /\
  create_new_product req 200 shelf
  = (error_response
       (Text "Missing fields: name, buying_price, selling_price, quantity, alert_config")
       400, shelf) /\
  fst (create_new_product req 200 shelf)
  <> error_response (Text "Product index already exists") 400.
Proof.
  split; [|split].
  - eexists. split; [left; reflexivity | reflexivity].
  - reflexivity.
  - vm_compute. discriminate.
Qed.

Lemma create_omitted_optional_is_empty_witness :
  exists p,
    snd (create_new_product (Json (complete_body "P-2" (PInt 1))) 200 shelf)
    = insert_row shelf p /\
    description p = PStr "" /\ supplier_name p = PStr "" /\ category p = PStr "".
Proof.
  assert (Hstatus :
    snd (fst (create_new_product (Json (complete_body "P-2" (PInt 1))) 200 shelf))
    = 201) by (vm_compute; reflexivity).
  destruct (create_omitted_optional_is_empty
              (complete_body "P-2" (PInt 1)) 200 shelf _ _
              (surjective_pairing _) Hstatus)
    as (p & Hdb & _ & Hd & Hs & Hc).
  exists p. split; [exact Hdb|].
  split; [apply Hd; reflexivity|]. split; [apply Hs; reflexivity|].
  apply Hc; reflexivity.
Defined.

(** C6, the failing input. All required fields are present and
    [buying_price] is JSON [null]: [float(None)] raises TypeError, which
    [except ValueError] does not catch, and the answer is 500 "Unexpected
    error", where a string that is no number is answered 400. *)
Theorem create_null_price_answers_500 :
  create_new_product (Json (complete_body "P-2" PNone)) 200 shelf
  = (error_response (WithExn "Unexpected error: " TypeError) 500, shelf) /\
  create_new_product (Json (complete_body "P-2" (PStr "cheap"))) 200 shelf
  = (error_response (WithExn "Invalid data format: " ValueError) 400, shelf).
Proof. split; reflexivity. Qed.

End CreateExamples.

(** ** Updating a product *)

Section Update.
Context {env : Collaborators}.

(** What an update can do to the store: nothing, or one UPDATE statement
    whose assignment keeps [id] and [product_index] of the row. *)
Lemma update_store (product_id : Z) (req : request_body) (now : Z) (db : Db) :
  snd (update_product product_id req now db) = db \/
  exists assign,
    (forall r, id (assign r) = id r /\ product_index (assign r) = product_index r) /\
    snd (update_product product_id req now db) = update_row db product_id assign.
Proof.
  unfold update_product, update_try.
  destruct req as [|data]; [left; reflexivity|].
  destruct (query_get db product_id) as [product|]; [|left; reflexivity].
  repeat match goal with
         | |- context [hbind (set_attr ?e ?b ?l ?c) _] =>
             destruct (set_attr e b l c) as [ex|r|[? ?]]; cbn [hbind];
             [destruct (is_SQLAlchemyError ex); left; reflexivity
             |left; reflexivity|]
         end.
  match goal with |- context [if ?c then _ else _] => destruct c end;
    [|left; reflexivity].
  match goal with |- context [db_accepts ?p] => destruct (db_accepts p) end;
    [|left; reflexivity].
  right. eexists. split; [|reflexivity].
  intros r0. split; reflexivity.
Qed.

Lemma update_row_keeps (db : Db) (product_id : Z) (assign : Product -> Product)
    {A} (column : Product -> A) :
  (forall r, column (assign r) = column r) ->
  map column (rows (update_row db product_id assign)) = map column (rows db).
Proof.
  intros Hkeep. unfold update_row. simpl. rewrite map_map.
  apply map_ext. intros r. destruct (id r =? product_id); [apply Hkeep | reflexivity].
Qed.

(** C9. Whatever the request, an update leaves the [id] and the
    [product_index] of every stored row as they were; so if the indexes of
    the stored rows are pairwise distinct before, they are after. *)
Theorem update_keeps_id_and_index (product_id : Z) (req : request_body)
    (now : Z) (db : Db) :
  NoDup (map product_index (rows db)) ->
  let db' := snd (update_product product_id req now db) in
  map id (rows db') = map id (rows db) /\
  map product_index (rows db') = map product_index (rows db) /\
  NoDup (map product_index (rows db')).
Proof.
  intros Huniq db'.
  assert (K : map id (rows db') = map id (rows db) /\
              map product_index (rows db') = map product_index (rows db)).
  { unfold db'.
    destruct (update_store product_id req now db) as [->|(assign & Hkeep & ->)].
    - split; reflexivity.
    - split; apply update_row_keeps; intros r; apply Hkeep. }
  destruct K as [Kid Kindex]. split; [exact Kid|]. split; [exact Kindex|].
  rewrite Kindex. exact Huniq.
Qed.

(** C3 (as amended). On an existing product, a body whose only key is
    [quantity], with a value [v] that [int] accepts as [n]: if [n] is the
    stored quantity no UPDATE is issued and the row, [last_updated]
    included, stays as it was; otherwise, when the database takes the row,
    the stored row is the old one with [quantity] = [n] and [last_updated]
    = [now]. Either way the answer is 200 with the stored row, and no other
    row changes. *)
Theorem update_quantity_only (product_id : Z) (data : pydict) (v : pyval)
    (n now : Z) (db : Db) (product : Product) :
  query_get db product_id = Some product ->
  lookup "quantity" data = Some v ->
  (forall k, k <> "quantity" -> lookup k data = None) ->
  py_int v = inr n ->
  let stored :=
    if n =? quantity product then product
    else {| id := id product;
            product_index := product_index product;
            name := name product;
            buying_price := buying_price product;
            selling_price := selling_price product;
            quantity := n;
            alert_config := alert_config product;
            description := description product;
            supplier_name := supplier_name product;
            last_updated := now;
            category := category product |} in
  (n = quantity product \/ db_accepts stored = true) ->
  let result := update_product product_id (Json data) now db in
  fst result = (ProductPayload "Product updated successfully" (to_dict stored), 200) /\
  query_get (snd result) product_id = Some stored /\
  (forall k, k <> product_id -> query_get (snd result) k = query_get db k).
Proof.
  intros Hget Hq Honly Hint stored Hok result.
  unfold result, update_product, update_try. rewrite Hget.
  unfold py_in, getitem. rewrite Hq.
  rewrite !Honly by discriminate.
  unfold set_attr, try_except, hbind, bind, ret. rewrite Hint.
  cbn [orb negb]. unfold stored in *.
  destruct (n =? quantity product) eqn:E; cbn [negb orb].
  - cbn [fst snd]. split; [reflexivity|]. split; [exact Hget|]. reflexivity.
  - destruct Hok as [Heq|Hok]; [apply Z.eqb_neq in E; contradiction|].
    rewrite Hok. cbn [fst snd]. split; [reflexivity|].
    unfold query_get, update_row in *. cbn [rows]. split.
    + rewrite find_map_assign by reflexivity. rewrite Hget. reflexivity.
    + intros k Hk. apply find_map_other; [exact Hk | reflexivity].
Qed.

End Update.

Section UpdateExamples.
#[local] Existing Instance demo.

Lemma update_keeps_id_and_index_witness :
  let db' := snd (update_product 1
                    (Json [("id", PInt 9); ("product_index", PStr "P-9");
                           ("name", PStr "Renamed")]) 200 shelf) in
  map id (rows db') = [1] /\
  map product_index (rows db') = [PStr "P-1"] /\
  NoDup (map product_index (rows db')).
Proof.
  refine (update_keeps_id_and_index 1
            (Json [("id", PInt 9); ("product_index", PStr "P-9");
                   ("name", PStr "Renamed")]) 200 shelf _).
  simpl. constructor; [simpl; tauto | constructor].
Defined.

Lemma update_quantity_only_witness :
  let result := update_product 1 (Json [("quantity", PStr "12")]) 200 shelf in
  query_get (snd result) 1
  = Some {| id := 1;
            product_index := PStr "P-1";
            name := PStr "Widget";
            buying_price := float_one;
            selling_price := float_2_5;
            quantity := 12;
            alert_config := config_text "5" "20";
            description := PStr "";
            supplier_name := PStr "";
            last_updated := 200;
            category := PStr "" |}.
Proof.
  refine (proj1 (proj2 (update_quantity_only 1 [("quantity", PStr "12")]
                          (PStr "12") 12 200 shelf
                          (widget 5 (config_text "5" "20")) _ _ _ _ _))).
  - reflexivity.
  - reflexivity.
  - intros k Hk. simpl. destruct (String.eqb_spec k "quantity"); [contradiction | reflexivity].
  - reflexivity.
  - right. reflexivity.
Defined.

(** C3 as stated fails: the stored quantity is 5 and the body is
    [{"quantity": 5}]; the update is answered 200, no attribute differs
    from its loaded value, no UPDATE is issued, and [last_updated] stays
    100 although the request is made at time 200. *)
Lemma update_same_quantity_keeps_last_updated :
  let result := update_product 1 (Json [("quantity", PInt 5)]) 200 shelf in
  snd (fst result) = 200 /\
  snd result = shelf /\
  option_map last_updated (query_get (snd result) 1) = Some 100 /\
  option_map last_updated (query_get (snd result) 1) <> Some 200.
Proof.
  repeat split. vm_compute. discriminate.
Qed.

End UpdateExamples.

(** ** Listing products *)

Lemma ceil_div_bounds (a b : Z) :
  0 < b -> b * (ceil_div a b - 1) < a <= b * ceil_div a b.
Proof.
  intros Hb. unfold ceil_div.
  pose proof (Z.div_mod (- a) b ltac:(lia)) as E.
  pose proof (Z.mod_pos_bound (- a) b Hb) as M.
  nia.
Qed.

Lemma paginate_page_bounds (table : list Product) (page per_page : Z) :
  let q := paginate table page per_page in
  1 <= q_page q /\ 1 <= q_per_page q /\
  (1 <= page -> q_page q = page) /\
  (1 <= per_page -> q_per_page q = per_page).
Proof.
  unfold paginate. cbn [q_page q_per_page].
  destruct (page <? 1) eqn:Ep; destruct (per_page <? 1) eqn:Epp;
    try apply Z.ltb_lt in Ep; try apply Z.ltb_ge in Ep;
    try apply Z.ltb_lt in Epp; try apply Z.ltb_ge in Epp;
    repeat split; intros; lia.
Qed.


Section Listing.
Context {env : Collaborators}.


(** C8. Whenever a list request whose [page] and [per_page] are at least
    1 is answered with pagination metadata, the status is 200 and: [total]
    is the number of stored rows; on an empty store [total] and [pages] are
    0 and the data is empty; otherwise [pages] is the ceiling of
    [total / per_page]; and over 60 rows with [per_page] 25 there are 3
    pages, page 1 holds 25 items with [has_next] and without [has_prev],
    page 3 holds 10 items without [has_next]. *)
Theorem list_pagination_metadata (page_arg per_page_arg : option string)
    (fetched : bool) (db : Db) (data : list pydict) (pagination : Pagination)
    (status : Z) :
  let asked_page := fst (list_params page_arg per_page_arg) in
  let asked_size := snd (list_params page_arg per_page_arg) in
  1 <= asked_page ->
  1 <= asked_size ->
  get_all_products page_arg per_page_arg fetched db
  = (ListPayload data pagination, status) ->
  status = 200 /\
  total pagination = Z.of_nat (List.length (rows db)) /\
  (rows db = [] -> total pagination = 0 /\ pages pagination = 0 /\ data = []) /\
  (0 < total pagination ->
     asked_size * (pages pagination - 1) < total pagination
                                          <= asked_size * pages pagination) /\
  (List.length (rows db) = 60%nat -> asked_size = 25 ->
     pages pagination = 3 /\
     (asked_page = 1 ->
        List.length data = 25%nat /\
        has_next pagination = true /\ has_prev pagination = false) /\
     (asked_page = 3 ->
        List.length data = 10%nat /\ has_next pagination = false)).
Proof.
  intros asked_page asked_size. unfold asked_page, asked_size, list_params.
  cbn [fst snd]. unfold get_all_products.
  set (page := args_get_int page_arg 1).
  set (size := args_get_int per_page_arg 25).
  intros Hpage Hsize Hrun.
  destruct fetched; [|discriminate].
  inversion Hrun as [[Hdata Hpag Hstatus]]. subst data pagination status.
  clear Hrun.
  split; [reflexivity|].
  cbn [total pages has_next has_prev].
  destruct (paginate_page_bounds (rows db) page size) as (_ & _ & Hp & Hs).
  cbv zeta in Hp, Hs. specialize (Hp Hpage). specialize (Hs Hsize).
  unfold q_has_next, q_has_prev, q_pages. rewrite Hp, Hs.
  assert (Ht : q_total (paginate (rows db) page size)
               = Z.of_nat (List.length (rows db))) by reflexivity.
  rewrite Ht.
  replace (page <? 1) with false by (symmetry; apply Z.ltb_ge; lia).
  replace (size <? 1) with false by (symmetry; apply Z.ltb_ge; lia).
  clear Ht Hp Hs.
  split; [reflexivity|]. split; [|split].
  - intros ->. simpl. rewrite skipn_nil, firstn_nil. repeat split.
  - intros Hpos.
    replace (Z.of_nat (List.length (rows db)) =? 0) with false
      by (symmetry; apply Z.eqb_neq; lia).
    apply ceil_div_bounds. lia.
  - intros H60 H25. rewrite H60, H25. split; [reflexivity|]. split.
    + intros H1. rewrite H1. rewrite length_map, length_firstn, length_skipn, H60.
      repeat split.
    + intros H3. rewrite H3. rewrite length_map, length_firstn, length_skipn, H60.
      repeat split.
Qed.

End Listing.

Section ListingExamples.
#[local] Existing Instance demo.



Lemma list_pagination_metadata_witness :
  exists data pagination,
    get_all_products (Some "3") None true warehouse
    = (ListPayload data pagination, 200) /\
    total pagination = 60 /\ pages pagination = 3 /\
    List.length data = 10%nat /\ has_next pagination = false.
Proof.
  assert (Hpage : 1 <= fst (list_params (Some "3") None))
    by (vm_compute; discriminate).
  assert (Hsize : 1 <= snd (list_params (Some "3") None))
    by (vm_compute; discriminate).
  destruct (get_all_products (Some "3") None true warehouse)
    as [[msg|msg d|data pagination] status] eqn:Hrun;
    try (vm_compute in Hrun; discriminate Hrun).
  destruct (list_pagination_metadata (Some "3") None true warehouse
              data pagination status Hpage Hsize Hrun)
    as (-> & Htotal & _ & _ & H60).
  destruct (H60 eq_refl eq_refl) as (Hpages & _ & Hthird).
  destruct (Hthird eq_refl) as (Hlen & Hnext).
  exists data, pagination.
  split; [reflexivity|]. split; [exact Htotal|]. split; [exact Hpages|].
  split; [exact Hlen | exact Hnext].
Defined.

End ListingExamples.

(** ** Looking rows up after a write *)

Lemma query_get_some (db : Db) (k : Z) (p : Product) :
  query_get db k = Some p -> In p (rows db) /\ id p = k.
Proof.
  unfold query_get. intros E. apply find_some in E as [Hin Hid].
  split; [exact Hin | now apply Z.eqb_eq].
Qed.

Lemma query_get_none (db : Db) (k : Z) :
  query_get db k = None <-> forall p, In p (rows db) -> id p <> k.
Proof.
  unfold query_get. split.
  - intros E p Hin. apply Z.eqb_neq. exact (find_none _ _ E p Hin).
  - intros Hno. destruct (find _ _) as [p|] eqn:E; [|reflexivity].
    apply find_some in E as [Hin Hid]. apply Z.eqb_eq in Hid.
    exfalso. exact (Hno p Hin Hid).
Qed.

Lemma find_app_last {A} (f : A -> bool) (l : list A) (x : A) :
  find f (l ++ [x]) =
    match find f l with
    | Some y => Some y
    | None => if f x then Some x else None
    end.
Proof.
  induction l as [|y l IH]; simpl; [reflexivity|].
  destruct (f y); [reflexivity | exact IH].
Qed.

Lemma query_get_insert_new (db : Db) (p : Product) :
  (forall r, In r (rows db) -> id r < id p) ->
  query_get (insert_row db p) (id p) = Some p.
Proof.
  intros Hbelow. unfold query_get, insert_row. cbn [rows].
  rewrite find_app_last.
  assert (E : find (fun r => id r =? id p) (rows db) = None).
  { apply (proj2 (query_get_none db (id p))). intros r Hin.
    specialize (Hbelow r Hin). lia. }
  rewrite E, Z.eqb_refl. reflexivity.
Qed.

Lemma query_get_insert_old (db : Db) (p : Product) (k : Z) :
  k <> id p -> query_get (insert_row db p) k = query_get db k.
Proof.
  intros Hk. unfold query_get, insert_row. cbn [rows].
  rewrite find_app_last.
  destruct (find _ (rows db)); [reflexivity|].
  replace (id p =? k) with false by (symmetry; apply Z.eqb_neq; lia).
  reflexivity.
Qed.

Lemma query_get_delete_same (db : Db) (k : Z) :
  query_get (delete_row db k) k = None.
Proof.
  apply query_get_none. unfold delete_row. cbn [rows].
  intros p Hin. apply filter_In in Hin as [_ Hkeep].
  apply negb_true_iff, Z.eqb_neq in Hkeep. exact Hkeep.
Qed.

Lemma query_get_delete_other (db : Db) (product_id k : Z) :
  k <> product_id ->
  query_get (delete_row db product_id) k = query_get db k.
Proof.
  intros Hk. unfold query_get, delete_row. cbn [rows].
  induction (rows db) as [|r l IH]; [reflexivity|].
  simpl. destruct (id r =? product_id) eqn:E; simpl.
  - apply Z.eqb_eq in E.
    replace (id r =? k) with false by (symmetry; apply Z.eqb_neq; lia).
    exact IH.
  - destruct (id r =? k); [reflexivity | exact IH].
Qed.

Lemma NoDup_map_filter {A B} (f : A -> B) (g : A -> bool) (l : list A) :
  NoDup (map f l) -> NoDup (map f (filter g l)).
Proof.
  induction l as [|x l IH]; simpl; intros Hnd; [constructor|].
  inversion Hnd as [|y ys Hnotin Hrest]; subst.
  destruct (g x); [|exact (IH Hrest)].
  simpl. constructor; [|exact (IH Hrest)].
  intros Hin. apply Hnotin. apply in_map_iff in Hin as (z & Hz & Hzin).
  apply filter_In in Hzin as [Hzin _]. apply in_map_iff. eauto.
Qed.

(** Rows with the same value in a duplicate-free column are the same row. *)
Lemma NoDup_map_same {A B} (f : A -> B) (l : list A) (x y : A) :
  NoDup (map f l) -> In x l -> In y l -> f x = f y -> x = y.
Proof.
  induction l as [|z l IH]; simpl; intros Hnd Hx Hy Hf; [contradiction|].
  inversion Hnd as [|w ws Hnotin Hrest]; subst.
  destruct Hx as [->|Hx], Hy as [->|Hy].
  - reflexivity.
  - exfalso. apply Hnotin. rewrite Hf. now apply in_map.
  - exfalso. apply Hnotin. rewrite <- Hf. now apply in_map.
  - exact (IH Hrest Hx Hy Hf).
Qed.

Lemma py_eq_string (a : pyval) (s : string) :
  py_eq a (PStr s) = true <-> a = PStr s.
Proof.
  destruct a as [|b|z|f|t|l|d]; simpl; split; try discriminate;
    try (intros K; inversion K; fail).
  - intros K. apply String.eqb_eq in K. now subst.
  - intros K. inversion K. apply String.eqb_refl.
Qed.

(** ** Reading and deleting one product *)

Section Lifecycle.
Context {env : Collaborators}.

(** X12. Deleting an existing product, when the commit
    goes through, is answered 200, and a get of the same id afterwards is
    answered 404 "Product not found". *)
Theorem delete_then_get_not_found (product_id : Z) (db : Db) (product : Product) :
  query_get db product_id = Some product ->
  let result := delete_product product_id true db in
  fst result = (ItemDone "Product deleted successfully", 200) /\
  get_single_product product_id (snd result)
  = (ItemError (Text "Product not found"), 404) /\
  delete_product product_id true (snd result)
  = ((ItemError (Text "Product not found"), 404), snd result).
Proof.
  intros Hget result. unfold result, delete_product. rewrite Hget.
  cbn [fst snd]. split; [reflexivity|].
  unfold get_single_product. rewrite query_get_delete_same.
  split; reflexivity.
Qed.

(** X13. A delete changes the store only when it is
    answered 200; then every product with another id is still found as it
    was and no id is found that was not there; an absent id is answered
    404 and a failed commit 500, both with the store as it was. *)
Theorem delete_touches_one_id (product_id : Z) (committed : bool) (db : Db) :
  let result := delete_product product_id committed db in
  (snd (fst result) <> 200 -> snd result = db) /\
  (query_get db product_id = None ->
   fst result = (ItemError (Text "Product not found"), 404)) /\
  (forall k, k <> product_id ->
     get_single_product k (snd result) = get_single_product k db) /\
  next_id (snd result) = next_id db.
Proof.
  intros result. unfold result, delete_product.
  destruct (query_get db product_id) as [product|] eqn:Hget.
  - destruct committed; cbn [fst snd].
    + split; [intros K; contradiction|]. split; [discriminate|].
      split; [|reflexivity].
      intros k Hk. unfold get_single_product.
      now rewrite query_get_delete_other.
    + repeat split. discriminate.
  - cbn [fst snd]. repeat split.
Qed.

(** X14. Where the indexes of the stored rows are
    pairwise distinct, once the product with index [s] is deleted no stored
    row has that index: the duplicate check of a create no longer finds
    it. *)
Theorem delete_frees_index (product_id : Z) (db : Db) (product : Product)
    (s : string) :
  NoDup (map product_index (rows db)) ->
  query_get db product_id = Some product ->
  product_index product = PStr s ->
  first_by_index (snd (delete_product product_id true db)) (PStr s) = None.
Proof.
  intros Huniq Hget Hindex. unfold delete_product. rewrite Hget. cbn [snd].
  apply query_get_some in Hget as [Hin Hid].
  unfold first_by_index, delete_row. cbn [rows].
  destruct (find _ _) as [r|] eqn:E; [|reflexivity].
  exfalso. apply find_some in E as [Hr Hmatch].
  apply filter_In in Hr as [Hr Hkeep].
  apply py_eq_string in Hmatch.
  assert (r = product)
    by (apply (NoDup_map_same product_index (rows db)); congruence).
  subst r. rewrite Hid, Z.eqb_refl in Hkeep. discriminate.
Qed.

End Lifecycle.

(** ** More on creating a product *)

Section CreateMore.
Context {env : Collaborators}.

(** Everything a create answered 201 went through. *)
Lemma create_success (data : pydict) (now : Z) (db : Db) (r : response)
    (db' : Db) :
  create_new_product (Json data) now db = (r, db') ->
  snd r = 201 ->
  exists vi vn vb vs vq vc b s q text,
    lookup "product_index" data = Some vi /\
    lookup "name" data = Some vn /\
    lookup "buying_price" data = Some vb /\
    lookup "selling_price" data = Some vs /\
    lookup "quantity" data = Some vq /\
    lookup "alert_config" data = Some vc /\
    json_dumps vc = inr text /\
    first_by_index db vi = None /\
    py_float float_of_string vb = inr b /\
    py_float float_of_string vs = inr s /\
    py_int vq = inr q /\
    let new_product :=
      {| id := next_id db;
         product_index := vi;
         name := vn;
         buying_price := b;
         selling_price := s;
         quantity := q;
         alert_config := text;
         description := dict_get data "description" (PStr "");
         supplier_name := dict_get data "supplier_name" (PStr "");
         last_updated := now;
         category := dict_get data "category" (PStr "") |} in
    db_accepts new_product = true /\
    r = (ProductPayload "Product created successfully" (to_dict new_product),
         201) /\
    db' = insert_row db new_product.
Proof.
  intros Hrun Hstatus.
  destruct (missing_fields data) as [|f0 l0] eqn:Hm.
  2:{ rewrite create_missing in Hrun by (rewrite Hm; discriminate).
      inversion Hrun; subst. simpl in Hstatus. discriminate. }
  destruct (missing_fields_nil data "product_index" Hm) as (vi & Hi);
    [simpl; tauto|].
  destruct (missing_fields_nil data "name" Hm) as (vn & Hn);
    [simpl; tauto|].
  destruct (missing_fields_nil data "buying_price" Hm) as (vb & Hb);
    [simpl; tauto|].
  destruct (missing_fields_nil data "selling_price" Hm) as (vs & Hs);
    [simpl; tauto|].
  destruct (missing_fields_nil data "quantity" Hm) as (vq & Hq);
    [simpl; tauto|].
  destruct (missing_fields_nil data "alert_config" Hm) as (vc & Hc);
    [simpl; tauto|].
  exists vi, vn, vb, vs, vq, vc.
  destruct (json_dumps vc) as [e|text] eqn:Hdumps.
  { exfalso. unfold create_new_product in Hrun.
    rewrite (create_try_complete data now db _ _ _ _ _ _ Hi Hn Hb Hs Hq Hc) in Hrun.
    rewrite Hdumps in Hrun. unfold try_except, hbind in Hrun.
    destruct e; simpl in Hrun; inversion Hrun; subst; discriminate. }
  destruct (first_by_index db vi) as [found|] eqn:Ef.
  { exfalso. unfold create_new_product in Hrun.
    rewrite (create_try_complete data now db _ _ _ _ _ _ Hi Hn Hb Hs Hq Hc) in Hrun.
    rewrite Hdumps, Ef in Hrun. simpl in Hrun.
    inversion Hrun; subst; discriminate. }
  pose proof (create_coerces data now db _ _ _ _ _ _ text
                Hi Hn Hb Hs Hq Hc Hdumps Ef) as K.
  cbv zeta in K. unfold bind, ret in K.
  destruct (py_float float_of_string vb) as [e|b].
  { exfalso. rewrite K in Hrun.
    destruct (is_ValueError e); inversion Hrun; subst; discriminate. }
  destruct (py_float float_of_string vs) as [e|s].
  { exfalso. rewrite K in Hrun.
    destruct (is_ValueError e); inversion Hrun; subst; discriminate. }
  destruct (py_int vq) as [e|q].
  { exfalso. rewrite K in Hrun.
    destruct (is_ValueError e); inversion Hrun; subst; discriminate. }
  exists b, s, q, text. rewrite K in Hrun.
  destruct (db_accepts _) eqn:Hacc.
  - inversion Hrun; subst. repeat split; assumption.
  - exfalso. inversion Hrun; subst; discriminate.
Qed.

(** The statuses of a create *)
Lemma create_status (req : request_body) (now : Z) (db : Db) :
  let status := snd (fst (create_new_product req now db)) in
  status = 201 \/ status = 400 \/ status = 500.
Proof.
  cbv zeta. destruct req as [|data]; [cbn; tauto|].
  unfold create_new_product.
  destruct (create_try (Json data) now db) as [e|r0|[r1 db1]] eqn:Htry.
  - destruct (is_ValueError e); [|destruct (is_SQLAlchemyError e)]; cbn; tauto.
  - cbn [fst snd]. unfold create_try in Htry.
    destruct (missing_fields data); [|inversion Htry; cbn; tauto].
    unfold try_except, hbind, lift in Htry.
    destruct (bind (getitem data "alert_config") _) as [e|text0].
    { destruct (is_TypeError e || is_ValueError e);
        inversion Htry; cbn; tauto. }
    destruct (getitem data "product_index") as [e|vi]; [discriminate|].
    destruct (first_by_index db vi); [inversion Htry; cbn; tauto|].
    destruct (getitem data "name") as [e|vn]; [discriminate|].
    destruct (bind (getitem data "buying_price") _) as [e|b]; [discriminate|].
    destruct (bind (getitem data "selling_price") _) as [e|s]; [discriminate|].
    destruct (bind (getitem data "quantity") _) as [e|q]; [discriminate|].
    destruct (db_accepts _); discriminate.
  - cbn [fst snd]. unfold create_try in Htry.
    destruct (missing_fields data); [|discriminate].
    unfold try_except, hbind, lift in Htry.
    destruct (bind (getitem data "alert_config") _) as [e|text0].
    { destruct (is_TypeError e || is_ValueError e); discriminate. }
    destruct (getitem data "product_index") as [e|vi]; [discriminate|].
    destruct (first_by_index db vi); [discriminate|].
    destruct (getitem data "name") as [e|vn]; [discriminate|].
    destruct (bind (getitem data "buying_price") _) as [e|b]; [discriminate|].
    destruct (bind (getitem data "selling_price") _) as [e|s]; [discriminate|].
    destruct (bind (getitem data "quantity") _) as [e|q]; [discriminate|].
    destruct (db_accepts _); [|discriminate].
    inversion Htry; subst. cbn. tauto.
Qed.

(** X4. A create is answered 201, 400 or 500. Unless it is 201 no row is
    added or changed, and a 400 leaves the whole store as it was; the next
    id never moves back, and by one at most (an INSERT the database
    rejects uses one up). When it is 201 exactly one row was appended: its
    id is the old [next_id], its [last_updated] is the time of the
    request. *)
Theorem create_all_or_nothing (req : request_body) (now : Z) (db : Db) :
  let result := create_new_product req now db in
  let status := snd (fst result) in
  (status = 201 \/ status = 400 \/ status = 500) /\
  (status <> 201 -> rows (snd result) = rows db) /\
  (status = 400 -> snd result = db) /\
  next_id db <= next_id (snd result) <= next_id db + 1 /\
  (status = 201 ->
   exists p,
     rows (snd result) = (rows db ++ [p])%list /\
     id p = next_id db /\
     last_updated p = now /\
     next_id (snd result) = next_id db + 1).
Proof.
  intros result status. unfold status, result.
  split; [apply create_status|].
  destruct req as [|data].
  { cbn. split; [reflexivity|]. split; [reflexivity|]. split; [lia | discriminate]. }
  pose proof (create_inversion data now db) as K.
  destruct (create_new_product (Json data) now db) as [r db'] eqn:Hrun.
  cbn [fst snd].
  destruct K as [[Hbad [->|[-> H500]]]|(vi & vn & b & s & q & text & Hr & Hdb)].
  - split; [reflexivity|]. split; [reflexivity|]. split; [lia | contradiction].
  - cbn [lose_id rows next_id].
    split; [reflexivity|]. split; [lia|]. split; [lia | contradiction].
  - cbv zeta in Hr, Hdb. subst r db'. cbn [fst snd insert_row rows next_id].
    split; [intros K; contradiction|]. split; [discriminate|]. split; [lia|].
    intros _. eexists. split; [reflexivity|]. repeat split.
Qed.

(** X1. Where every stored id is below [next_id], a create answered 201
    can be read back: a get of the old [next_id] on the new store is
    answered 200 with the very data of the create's answer, whose "id" is
    that number. *)
Theorem create_then_get (data : pydict) (now : Z) (db : Db) (r : response)
    (db' : Db) :
  (forall p, In p (rows db) -> id p < next_id db) ->
  create_new_product (Json data) now db = (r, db') ->
  snd r = 201 ->
  exists d,
    fst r = ProductPayload "Product created successfully" d /\
    get_single_product (next_id db) db' = (ItemData d, 200) /\
    lookup "id" d = Some (PInt (next_id db)).
Proof.
  intros Hbelow Hrun Hstatus.
  destruct (create_success data now db r db' Hrun Hstatus)
    as (vi & vn & vb & vs & vq & vc & b & s & q & text & _ & _ & _ & _ & _
        & _ & _ & _ & _ & _ & _ & _ & Hr & Hdb).
  cbv zeta in Hr, Hdb. subst r db'. eexists. split; [reflexivity|].
  split; [|reflexivity].
  unfold get_single_product.
  match goal with |- context [insert_row db ?p] =>
    pose proof (query_get_insert_new db p Hbelow) as K end.
  cbn [id] in K. rewrite K. reflexivity.
Qed.

(** X3. A create whose [product_index], when it has one, is a string
    keeps the indexes of the stored rows pairwise distinct. *)
Theorem create_keeps_index_unique (data : pydict) (now : Z) (db : Db) :
  NoDup (map product_index (rows db)) ->
  (forall v, lookup "product_index" data = Some v -> exists s, v = PStr s) ->
  NoDup (map product_index (rows (snd (create_new_product (Json data) now db)))).
Proof.
  intros Huniq Hstring.
  destruct (create_new_product (Json data) now db) as [r db'] eqn:Hrun.
  cbn [snd].
  destruct (Z.eq_dec (snd r) 201) as [Hstatus|Hstatus].
  - destruct (create_success data now db r db' Hrun Hstatus)
      as (vi & vn & vb & vs & vq & vc & b & s & q & text & Hi & _ & _ & _ & _
          & _ & _ & Hnew & _ & _ & _ & _ & _ & Hdb).
    cbv zeta in Hdb. subst db'. cbn [insert_row rows].
    rewrite map_app. cbn [map product_index].
    destruct (Hstring vi Hi) as (t & ->).
    apply NoDup_app; [exact Huniq | constructor; [simpl; tauto | constructor] |].
    intros a Ha [<-|[]].
    apply in_map_iff in Ha as (p & Hp & Hin).
    unfold first_by_index in Hnew.
    pose proof (find_none _ _ Hnew p Hin) as K. cbn beta in K.
    rewrite Hp in K. simpl in K. rewrite String.eqb_refl in K. discriminate.
  - pose proof (create_inversion data now db) as K. rewrite Hrun in K.
    destruct K as [[_ [->|[-> _]]]|(vi & vn & b & s & q & text & Hr & _)];
      [exact Huniq | exact Huniq |].
    cbv zeta in Hr. subst r. contradiction.
Qed.

(** X5. Where decoding gives back the [alert_config] object that was
    encoded, and its thresholds are numbers, the "alert_level" in the
    answer of a successful create is the classification of the coerced
    quantity against these thresholds. *)
Theorem create_reports_alert_level (data : pydict) (now : Z) (db : Db)
    (r : response) (db' : Db) (cfg : pydict) (vq : pyval) (q : Z)
    (l i : realval) :
  create_new_product (Json data) now db = (r, db') ->
  snd r = 201 ->
  lookup "alert_config" data = Some (PDict cfg) ->
  (forall text, json_dumps (PDict cfg) = inr text ->
                json_loads text = inr (PDict cfg)) ->
  real_of (dict_get cfg "low_stock" (PInt 0)) = Some l ->
  real_of (dict_get cfg "in_stock" (PInt 999999)) = Some i ->
  lookup "quantity" data = Some vq ->
  py_int vq = inr q ->
  exists d,
    fst r = ProductPayload "Product created successfully" d /\
    lookup "alert_level" d =
      Some (PStr (if q <=? 0 then "Out of Stock"
                  else if rv_le (RFin (inject_Z q)) l then "Low Stock"
                  else if rv_le i (RFin (inject_Z q)) then "In Stock"
                  else "Moderate Stock")).
Proof.
  intros Hrun Hstatus Hcfg Hround Hl Hi Hq Hint.
  destruct (create_success data now db r db' Hrun Hstatus)
    as (vi & vn & vb & vs & vq' & vc & b & s & q' & text & _ & _ & _ & _
        & Hq' & Hc & Hdumps & _ & _ & _ & Hint' & _ & Hr & _).
  cbv zeta in Hr. subst r.
  assert (vq' = vq) by congruence. subst vq'.
  assert (q' = q) by congruence. subst q'.
  assert (vc = PDict cfg) by congruence. subst vc.
  eexists. split; [reflexivity|].
  cbn [to_dict lookup String.eqb Ascii.eqb Bool.eqb].
  f_equal. f_equal.
  erewrite stock_alert_numeric; [reflexivity | | exact Hl | exact Hi].
  cbn [alert_config]. apply Hround, Hdumps.
Qed.

(** X6. The same JSON body, with a string [product_index], sent again
    after a create answered 201 is answered 400 "Product index already
    exists", and stores nothing. *)
Theorem create_twice_conflicts (data : pydict) (now later : Z) (db : Db)
    (r : response) (db' : Db) (s : string) :
  create_new_product (Json data) now db = (r, db') ->
  snd r = 201 ->
  lookup "product_index" data = Some (PStr s) ->
  create_new_product (Json data) later db' =
    (error_response (Text "Product index already exists") 400, db').
Proof.
  intros Hrun Hstatus Hindex.
  destruct (create_success data now db r db' Hrun Hstatus)
    as (vi & vn & vb & vs & vq & vc & b & p & q & text & Hi & Hn & Hb & Hs
        & Hq & Hc & Hdumps & _ & _ & _ & _ & _ & _ & Hdb).
  cbv zeta in Hdb.
  assert (vi = PStr s) by congruence. subst vi.
  unfold create_new_product.
  rewrite (create_try_complete data later db' _ _ _ _ _ _ Hi Hn Hb Hs Hq Hc).
  rewrite Hdumps. unfold try_except, hbind.
  assert (Hfound : exists found, first_by_index db' (PStr s) = Some found).
  { subst db'. unfold first_by_index, insert_row. cbn [rows].
    rewrite find_app_last. destruct (find _ (rows db)); [eauto|].
    cbn [product_index py_eq]. rewrite String.eqb_refl. eauto. }
  destruct Hfound as (found & ->). reflexivity.
Qed.

End CreateMore.

(** ** More on updating a product *)

Lemma lift_no_return {A} (c : Exc A) (r : response) : lift c <> Return r.
Proof. destruct c; discriminate. Qed.

Lemma try_except_return {A} (c : Exc A) (classes : exn -> bool)
    (r0 r : response) :
  try_except c classes r0 = Return r -> r = r0.
Proof.
  unfold try_except. destruct c as [e|a]; [|discriminate].
  destruct (classes e); [|discriminate]. intros K. now inversion K.
Qed.

Lemma set_attr_return {A} (eqb : A -> A -> bool) (present : bool) (loaded : A)
    (c : outcome A) (r : response) :
  set_attr eqb present loaded c = Return r -> c = Return r.
Proof.
  unfold set_attr. destruct present; [|discriminate].
  destruct c; simpl; intros K; try discriminate. now inversion K.
Qed.

Section UpdateMore.
Context {env : Collaborators}.

(** The three ways an update ends: an error with the store as it was; 200
    without any UPDATE; 200 with one UPDATE that keeps [id] and
    [product_index] and stamps [last_updated]. *)
Lemma update_inversion (product_id : Z) (req : request_body) (now : Z)
    (db : Db) :
  let result := update_product product_id req now db in
  (snd result = db /\
   (snd (fst result) = 400 \/ snd (fst result) = 404 \/ snd (fst result) = 500) /\
   (query_get db product_id = None -> req <> NotJson ->
    fst result = error_response (Text "Product not found") 404)) \/
  (exists product,
     query_get db product_id = Some product /\
     (result = ((ProductPayload "Product updated successfully"
                   (to_dict product), 200), db) \/
      exists assign,
        (forall r, id (assign r) = id r /\
                   product_index (assign r) = product_index r /\
                   last_updated (assign r) = now) /\
        snd result = update_row db product_id assign /\
        fst result = (ProductPayload "Product updated successfully"
                        (to_dict (assign product)), 200))).
Proof.
  intros result. unfold result, update_product, update_try.
  destruct req as [|data].
  { left. cbn. split; [reflexivity|]. split; [tauto|]. intros _ K. contradiction. }
  destruct (query_get db product_id) as [product|] eqn:Hget.
  2:{ left. cbn. split; [reflexivity|]. split; [tauto|]. reflexivity. }
  repeat match goal with
         | |- context [hbind (set_attr ?e ?b ?l ?c) _] =>
             let E := fresh "E" in
             destruct (set_attr e b l c) as [ex|r|[? ?]] eqn:E; cbn [hbind];
             [left; destruct (is_SQLAlchemyError ex); cbn;
              (split; [reflexivity|]); (split; [tauto | discriminate])
             |left; apply set_attr_return in E;
              first [ exfalso; exact (lift_no_return _ _ E)
                    | apply try_except_return in E; subst r; cbn;
                      (split; [reflexivity|]);
                      (split; [tauto | discriminate]) ]
             |clear E]
         end.
  match goal with |- context [if ?c then _ else _] => destruct c end.
  - match goal with |- context [db_accepts ?p] => destruct (db_accepts p) end.
    + right. exists product. split; [reflexivity|].
      right. eexists. split; [|split; [reflexivity | reflexivity]].
      intros r0. repeat split.
    + left. cbn. split; [reflexivity|]. split; [tauto | discriminate].
  - right. exists product. split; [reflexivity|]. left. reflexivity.
Qed.

(** X7. An update is answered 200, 400, 404 or 500, and unless it is
    200 the store is as it was, whatever fields were assigned before the
    failing one. A body that is not JSON is answered 400 before the id is
    looked up; a JSON body for an id that is not stored is answered 404. *)
Theorem update_all_or_nothing (product_id : Z) (req : request_body) (now : Z)
    (db : Db) :
  let result := update_product product_id req now db in
  let status := snd (fst result) in
  (status = 200 \/ status = 400 \/ status = 404 \/ status = 500) /\
  (status <> 200 -> snd result = db) /\
  (req = NotJson ->
   fst result = error_response (Text "Request must be JSON") 400) /\
  (req <> NotJson -> query_get db product_id = None ->
   fst result = error_response (Text "Product not found") 404).
Proof.
  intros result status. unfold status, result.
  split; [|split; [|split]].
  - destruct (update_inversion product_id req now db)
      as [(_ & Hs & _)|(product & _ & [->|(assign & _ & _ & ->)])];
      cbn; tauto.
  - destruct (update_inversion product_id req now db)
      as [(Hdb & _)|(product & _ & [->|(assign & _ & _ & ->)])];
      cbn; intros K; try contradiction. exact Hdb.
  - intros ->. reflexivity.
  - intros Hjson Hnone.
    destruct (update_inversion product_id req now db)
      as [(_ & _ & K)|(product & Hget & _)]; [auto | congruence].
Qed.

(** X8. An update, whatever its body and its outcome, leaves every
    product with another id to be read as before, and neither adds nor
    removes a row nor moves [next_id]. *)
Theorem update_touches_one_id (product_id : Z) (req : request_body) (now : Z)
    (db : Db) :
  let db' := snd (update_product product_id req now db) in
  (forall k, k <> product_id ->
     get_single_product k db' = get_single_product k db) /\
  List.length (rows db') = List.length (rows db) /\
  next_id db' = next_id db.
Proof.
  intros db'. unfold db'.
  destruct (update_store product_id req now db) as [->|(assign & Hkeep & ->)].
  - repeat split.
  - split; [|split; [|reflexivity]].
    + intros k Hk. unfold get_single_product, query_get, update_row.
      cbn [rows]. rewrite find_map_other; [reflexivity | exact Hk |].
      intros r. apply Hkeep.
    + unfold update_row. cbn [rows]. apply length_map.
Qed.

(** X9. After an update answered 200, a get of the same id is answered
    200 with the very data of the update's answer. *)
Theorem update_then_get (product_id : Z) (req : request_body) (now : Z)
    (db : Db) :
  let result := update_product product_id req now db in
  snd (fst result) = 200 ->
  exists d,
    fst result = (ProductPayload "Product updated successfully" d, 200) /\
    get_single_product product_id (snd result) = (ItemData d, 200).
Proof.
  intros result. unfold result.
  destruct (update_inversion product_id req now db)
    as [(_ & Hs & _)|(product & Hget & [->|(assign & Hkeep & -> & ->)])];
    cbn [fst snd]; intros Hstatus.
  - lia.
  - eexists. split; [reflexivity|].
    unfold get_single_product. now rewrite Hget.
  - eexists. split; [reflexivity|].
    unfold get_single_product, query_get, update_row in *. cbn [rows].
    rewrite find_map_assign by (intros r; apply Hkeep).
    rewrite Hget. reflexivity.
Qed.

(** X10. A JSON body with none of the eight assignable keys (an empty
    object, or only keys such as "id" and "product_index") is answered 200
    with the stored product, and changes nothing, [last_updated] included. *)
Theorem update_unknown_keys_noop (product_id : Z) (data : pydict) (now : Z)
    (db : Db) (product : Product) :
  query_get db product_id = Some product ->
  (forall k,
     In k ["name"; "buying_price"; "selling_price"; "quantity"; "alert_config";
           "description"; "supplier_name"; "category"] ->
     py_in k data = false) ->
  update_product product_id (Json data) now db =
    ((ProductPayload "Product updated successfully" (to_dict product), 200), db).
Proof.
  intros Hget Habsent.
  unfold update_product, update_try. rewrite Hget.
  rewrite !Habsent by (simpl; tauto).
  reflexivity.
Qed.

(** X11. On an existing product, a [buying_price] that [float] rejects
    stops the update with the store as it was, also when "name" was
    assigned before it: a ValueError is answered 400 "Invalid buying_price
    format", any other exception (TypeError on null) 500. *)
Theorem update_rejects_bad_price (product_id : Z) (data : pydict) (now : Z)
    (db : Db) (product : Product) (v : pyval) (e : exn) :
  query_get db product_id = Some product ->
  lookup "buying_price" data = Some v ->
  py_float float_of_string v = inl e ->
  update_product product_id (Json data) now db =
    (if is_ValueError e
     then error_response (Text "Invalid buying_price format") 400
     else error_response (WithExn "Unexpected error: " e) 500,
     db).
Proof.
  intros Hget Hprice Hraise.
  unfold update_product, update_try. rewrite Hget.
  unfold py_in, getitem. rewrite Hprice.
  unfold set_attr at 1 2.
  destruct (lookup "name" data) as [vn|];
    cbn [lift hbind bind ret raise]; rewrite Hraise; unfold try_except;
    cbn [hbind];
    destruct (py_float_raises _ _ Hraise) as [->|[->| ->]]; reflexivity.
Qed.

(** X2. The primary key survives every write: if the stored ids are
    pairwise distinct and below [next_id], they are so after any create,
    any update and any delete. *)
Theorem handlers_keep_primary_key (db : Db) :
  primary_key db ->
  (forall req now, primary_key (snd (create_new_product req now db))) /\
  (forall product_id req now,
     primary_key (snd (update_product product_id req now db))) /\
  (forall product_id committed,
     primary_key (snd (delete_product product_id committed db))).
Proof.
  intros [Huniq Hbelow]. split; [|split].
  - intros [|data] now; [split; assumption|].
    pose proof (create_inversion data now db) as K.
    destruct (create_new_product (Json data) now db) as [r db'].
    cbn [snd].
    destruct K as [[_ [->|[-> _]]]|(vi & vn & b & s & q & text & _ & Hdb)];
      [split; assumption
      |split; [exact Huniq|];
       intros p Hin; specialize (Hbelow p Hin); cbn [lose_id next_id]; lia
      |].
    cbv zeta in Hdb. subst db'. unfold primary_key, insert_row.
    cbn [rows next_id]. split.
    + rewrite map_app. cbn [map id].
      apply NoDup_app; [exact Huniq | constructor; [simpl; tauto | constructor] |].
      intros a Ha [<-|[]].
      apply in_map_iff in Ha as (p & Hp & Hin).
      specialize (Hbelow p Hin). lia.
    + intros p Hin. apply in_app_or in Hin as [Hin|[<-|[]]].
      * specialize (Hbelow p Hin). lia.
      * cbn [id]. lia.
  - intros product_id req now.
    pose proof (update_store product_id req now db) as K.
    destruct K as [->|(assign & Hkeep & ->)]; [split; assumption|].
    unfold primary_key. split.
    + rewrite update_row_keeps by (intros r; apply Hkeep). exact Huniq.
    + unfold update_row. cbn [rows next_id]. intros p Hin.
      apply in_map_iff in Hin as (r & Hp & Hin).
      destruct (id r =? product_id).
      * subst p. rewrite (proj1 (Hkeep r)). auto.
      * subst p. auto.
  - intros product_id committed. unfold delete_product.
    destruct (query_get db product_id) as [found|]; [|split; assumption].
    destruct committed; [|split; assumption].
    cbn [snd]. unfold primary_key, delete_row. cbn [rows next_id]. split.
    + apply NoDup_map_filter, Huniq.
    + intros row Hin. apply filter_In in Hin as [Hin _]. auto.
Qed.

(** X21. An update that changes the store stamps the row: the product
    read back under the same id has [last_updated] equal to the time of the
    request. *)
Theorem update_change_stamps (product_id : Z) (req : request_body) (now : Z)
    (db : Db) :
  let result := update_product product_id req now db in
  snd result <> db ->
  snd (fst result) = 200 /\
  exists p,
    query_get (snd result) product_id = Some p /\ last_updated p = now.
Proof.
  intros result. unfold result.
  destruct (update_inversion product_id req now db)
    as [(Hdb & _)|(product & Hget & [->|(assign & Hkeep & Hdb & Hr)])];
    intros Hchanged.
  - contradiction.
  - contradiction.
  - rewrite Hr, Hdb. split; [reflexivity|].
    exists (assign product). split; [|apply Hkeep].
    unfold query_get, update_row in *. cbn [rows].
    rewrite find_map_assign by (intros r; apply Hkeep).
    rewrite Hget. reflexivity.
Qed.

(** A body with the only key [quantity], whose value [int] accepts: the
    run of the handler. *)
Lemma update_quantity_run (product_id : Z) (data : pydict) (v : pyval)
    (n now : Z) (db : Db) (product : Product) :
  query_get db product_id = Some product ->
  lookup "quantity" data = Some v ->
  (forall k, k <> "quantity" -> lookup k data = None) ->
  py_int v = inr n ->
  let assign (r : Product) :=
    {| id := id r;
       product_index := product_index r;
       name := name product;
       buying_price := buying_price product;
       selling_price := selling_price product;
       quantity := n;
       alert_config := alert_config product;
       description := description product;
       supplier_name := supplier_name product;
       last_updated := now;
       category := category product |} in
  update_product product_id (Json data) now db =
    if n =? quantity product
    then ((ProductPayload "Product updated successfully" (to_dict product), 200),
          db)
    else if db_accepts (assign product)
    then ((ProductPayload "Product updated successfully"
             (to_dict (assign product)), 200),
          update_row db product_id assign)
    else (error_response (WithExn "Database error: " SQLAlchemyError) 500, db).
Proof.
  intros Hget Hq Honly Hint assign.
  unfold update_product, update_try. rewrite Hget.
  unfold py_in, getitem. rewrite Hq.
  rewrite !Honly by discriminate.
  unfold set_attr, try_except, hbind, bind, ret. rewrite Hint.
  cbn [orb negb].
  subst assign. cbv beta.
  destruct (n =? quantity product); cbn [negb orb]; [reflexivity|].
  match goal with |- context [db_accepts ?p] => destruct (db_accepts p) end;
    reflexivity.
Qed.

(** X22. Sending the same quantity-only body again changes nothing: the
    second update finds the quantity already stored, issues no UPDATE, and
    [last_updated] keeps the time of the first request. *)
Theorem update_quantity_twice (product_id : Z) (data : pydict) (v : pyval)
    (n now later : Z) (db : Db) (product : Product) :
  query_get db product_id = Some product ->
  lookup "quantity" data = Some v ->
  (forall k, k <> "quantity" -> lookup k data = None) ->
  py_int v = inr n ->
  let first := update_product product_id (Json data) now db in
  snd (fst first) = 200 ->
  update_product product_id (Json data) later (snd first) = first.
Proof.
  intros Hget Hq Honly Hint first. unfold first.
  rewrite (update_quantity_run product_id data v n now db product
             Hget Hq Honly Hint).
  destruct (n =? quantity product) eqn:E.
  - intros _. cbn [snd].
    rewrite (update_quantity_run product_id data v n later db product
               Hget Hq Honly Hint).
    rewrite E. reflexivity.
  - match goal with |- context [db_accepts ?p] =>
      destruct (db_accepts p) eqn:Hacc end;
      [|cbn; discriminate].
    intros _. cbn [snd].
    match goal with |- context [update_row db product_id ?f] =>
      set (assign := f) end.
    assert (Hget' : query_get (update_row db product_id assign) product_id
                    = Some (assign product)).
    { unfold query_get, update_row in *. cbn [rows].
      rewrite find_map_assign by reflexivity. rewrite Hget. reflexivity. }
    rewrite (update_quantity_run product_id data v n later _ (assign product)
               Hget' Hq Honly Hint).
    cbn [quantity assign]. rewrite Z.eqb_refl. reflexivity.
Qed.

End UpdateMore.

(** ** More on the classifier *)

Lemma rv_le_mono_left (a b : Z) (l : realval) :
  a <= b -> rv_le (RFin (inject_Z b)) l = true ->
  rv_le (RFin (inject_Z a)) l = true.
Proof.
  intros Hab. destruct l as [|[|]|y]; simpl; try discriminate; try reflexivity.
  intros K. apply Qle_bool_iff in K. apply Qle_bool_iff.
  eapply Qle_trans; [|exact K]. now rewrite <- Zle_Qle.
Qed.

Lemma rv_le_mono_right (a b : Z) (i : realval) :
  a <= b -> rv_le i (RFin (inject_Z a)) = true ->
  rv_le i (RFin (inject_Z b)) = true.
Proof.
  intros Hab. destruct i as [|[|]|x]; simpl; try discriminate; try reflexivity.
  intros K. apply Qle_bool_iff in K. apply Qle_bool_iff.
  eapply Qle_trans; [exact K|]. now rewrite <- Zle_Qle.
Qed.

Lemma rv_le_above (i l : realval) (q : Z) :
  rv_le i l = true -> rv_le (RFin (inject_Z q)) l = false ->
  rv_le i (RFin (inject_Z q)) = true.
Proof.
  destruct i as [|[|]|x], l as [|[|]|y]; simpl;
    try discriminate; try reflexivity; intros Hil Hql.
  apply Qle_bool_iff in Hil. apply Qle_bool_iff.
  destruct (Qlt_le_dec y (inject_Z q)) as [Hlt|Hle].
  - apply Qlt_le_weak. eapply Qle_lt_trans; eassumption.
  - apply Qle_bool_iff in Hle. congruence.
Qed.

Section ClassifierMore.
Context {env : Collaborators}.

(** X18. Thresholds the wrong way round: when both are numbers and
    [in_stock <= low_stock], no quantity is "Moderate Stock"; a positive
    quantity is "Low Stock" up to [low_stock] and "In Stock" above it. *)
Theorem stock_alert_inverted_thresholds (self : Product) (d : pydict)
    (l i : realval) :
  json_loads (alert_config self) = inr (PDict d) ->
  real_of (dict_get d "low_stock" (PInt 0)) = Some l ->
  real_of (dict_get d "in_stock" (PInt 999999)) = Some i ->
  rv_le i l = true ->
  let q := quantity self in
  stock_alert self <> "Moderate Stock" /\
  (0 < q -> rv_le (RFin (inject_Z q)) l = false -> stock_alert self = "In Stock").
Proof.
  intros Hd Hl Hi Hil q.
  rewrite (stock_alert_numeric _ _ _ _ Hd Hl Hi). fold q.
  destruct (q <=? 0) eqn:E0.
  { split; [discriminate|]. apply Z.leb_le in E0. intros; lia. }
  destruct (rv_le (RFin (inject_Z q)) l) eqn:El.
  { split; [discriminate|]. intros _ K; discriminate. }
  rewrite (rv_le_above _ _ _ Hil El). split; [discriminate | reflexivity].
Qed.

(** X19. A config that decodes to an object with neither threshold is
    classified against the defaults 0 and 999999: never "Low Stock" and
    never the error label; "In Stock" from 999999 on. *)
Theorem stock_alert_default_thresholds (self : Product) (d : pydict) :
  json_loads (alert_config self) = inr (PDict d) ->
  lookup "low_stock" d = None ->
  lookup "in_stock" d = None ->
  stock_alert self =
    if quantity self <=? 0 then "Out of Stock"
    else if 999999 <=? quantity self then "In Stock"
    else "Moderate Stock".
Proof.
  intros Hd Hl Hi.
  assert (Hrl : real_of (dict_get d "low_stock" (PInt 0))
                = Some (RFin (inject_Z 0)))
    by (unfold dict_get; rewrite Hl; reflexivity).
  assert (Hri : real_of (dict_get d "in_stock" (PInt 999999))
                = Some (RFin (inject_Z 999999)))
    by (unfold dict_get; rewrite Hi; reflexivity).
  rewrite (stock_alert_numeric _ _ _ _ Hd Hrl Hri), !rv_le_int.
  destruct (quantity self <=? 0); reflexivity.
Qed.

(** X20. More stock never lowers the level: for one config with numeric
    thresholds, in whatever order, a product with at least the quantity
    of another has a label at least as high in the order "Out of Stock",
    "Low Stock", "Moderate Stock", "In Stock". *)
Theorem stock_alert_monotone (self other : Product) (d : pydict)
    (l i : realval) :
  alert_config other = alert_config self ->
  json_loads (alert_config self) = inr (PDict d) ->
  real_of (dict_get d "low_stock" (PInt 0)) = Some l ->
  real_of (dict_get d "in_stock" (PInt 999999)) = Some i ->
  quantity self <= quantity other ->
  stock_rank (stock_alert self) <= stock_rank (stock_alert other).
Proof.
  intros Hsame Hd Hl Hi Hle.
  assert (Hd' : json_loads (alert_config other) = inr (PDict d))
    by (rewrite Hsame; exact Hd).
  rewrite (stock_alert_numeric _ _ _ _ Hd Hl Hi).
  rewrite (stock_alert_numeric _ _ _ _ Hd' Hl Hi).
  destruct (quantity other <=? 0) eqn:Eo.
  { apply Z.leb_le in Eo.
    replace (quantity self <=? 0) with true by (symmetry; apply Z.leb_le; lia).
    reflexivity. }
  destruct (quantity self <=? 0) eqn:Es.
  { destruct (rv_le (RFin (inject_Z (quantity other))) l);
      [|destruct (rv_le i (RFin (inject_Z (quantity other))))];
      vm_compute; discriminate. }
  destruct (rv_le (RFin (inject_Z (quantity other))) l) eqn:Eol.
  { rewrite (rv_le_mono_left _ _ _ Hle Eol). reflexivity. }
  destruct (rv_le (RFin (inject_Z (quantity self))) l) eqn:Esl.
  { destruct (rv_le i (RFin (inject_Z (quantity other))));
      vm_compute; discriminate. }
  destruct (rv_le i (RFin (inject_Z (quantity self)))) eqn:Esi.
  { rewrite (rv_le_mono_right _ _ _ Hle Esi). reflexivity. }
  destruct (rv_le i (RFin (inject_Z (quantity other))));
    vm_compute; discriminate.
Qed.

End ClassifierMore.

(** ** More on listing *)

Lemma firstn_add {A} (a b : nat) (l : list A) :
  firstn (a + b) l = (firstn a l ++ firstn b (skipn a l))%list.
Proof.
  revert l. induction a as [|a IH]; intros l; [reflexivity|].
  destruct l as [|x l]; simpl.
  - now rewrite firstn_nil.
  - now rewrite IH.
Qed.

(** Consecutive slices of [size] elements, put end to end, are a prefix. *)
Lemma chunks_prefix {A} (size n : nat) (l : list A) :
  List.concat (map (fun j => firstn size (skipn (j * size) l)) (seq 0 n))
  = firstn (n * size) l.
Proof.
  induction n as [|n IH]; [reflexivity|].
  rewrite seq_S, map_app, concat_app, IH. cbn [map List.concat plus].
  rewrite app_nil_r.
  replace (S n * size)%nat with (n * size + size)%nat by lia.
  now rewrite firstn_add.
Qed.

Lemma Forall2_map_eq {A B C} (R : A -> B -> Prop) (f : A -> C) (g : B -> C)
    (l1 : list A) (l2 : list B) :
  (forall a b, In b l2 -> R a b -> f a = g b) ->
  Forall2 R l1 l2 -> map f l1 = map g l2.
Proof.
  intros Hfg H. induction H as [|a b l1 l2 Hab _ IH]; [reflexivity|].
  simpl. rewrite (Hfg a b (or_introl eq_refl) Hab), IH; [reflexivity|].
  intros a' b' Hin. apply Hfg. now right.
Qed.

Lemma page_numbers_are_pages (n k : Z) :
  In k (page_numbers n) -> 1 <= k <= n.
Proof.
  unfold page_numbers. intros Hin.
  apply in_map_iff in Hin as (j & <- & Hj). apply in_seq in Hj. lia.
Qed.

Section ListingMore.
Context {env : Collaborators}.

(** The answer to a list request whose page and size are at least 1, when
    the database answers the query. *)
Lemma list_valid (page_arg size_arg : option string) (db : Db) :
  let k := args_get_int page_arg 1 in
  let size := args_get_int size_arg 25 in
  let r := get_all_products page_arg size_arg true db in
  let count := Z.of_nat (List.length (rows db)) in
  1 <= k -> 1 <= size ->
  listed r = map to_dict (firstn (Z.to_nat size)
                            (skipn (Z.to_nat ((k - 1) * size)) (rows db))) /\
  listed_pages r = (if count =? 0 then 0 else ceil_div count size) /\
  listed_has_next r = (k <? listed_pages r).
Proof.
  intros k size r count Hk Hsize.
  unfold r, listed, listed_pages, listed_has_next, get_all_products.
  fold k size. cbn [fst pages has_next].
  unfold q_has_next, q_pages, paginate. cbn [items q_page q_per_page q_total].
  replace (k <? 1) with false by (symmetry; apply Z.ltb_ge; lia).
  replace (size <? 1) with false by (symmetry; apply Z.ltb_ge; lia).
  repeat split.
Qed.

(** X15. With a page size of at least 1 and a database that answers,
    the pages 1 to [pages] put end to end are the whole table, every row
    once and in the stored order. *)
Theorem list_pages_partition (size_arg : option string) (db : Db)
    (page_args : list string) :
  1 <= args_get_int size_arg 25 ->
  Forall2 (fun s k => int_of_string s = Some k) page_args
    (page_numbers (listed_pages (get_all_products None size_arg true db))) ->
  List.concat
    (map (fun s => listed (get_all_products (Some s) size_arg true db)) page_args)
  = map to_dict (rows db).
Proof.
  intros Hsize Hargs.
  destruct (list_valid None size_arg db ltac:(simpl; lia) Hsize)
    as (_ & Hpages & _).
  rewrite Hpages in Hargs. clear Hpages.
  set (size := args_get_int size_arg 25) in *.
  set (count := Z.of_nat (List.length (rows db))) in *.
  set (n := if count =? 0 then 0 else ceil_div count size) in *.
  assert (Hn : 0 <= n /\ count <= size * n).
  { unfold n. destruct (count =? 0) eqn:E0.
    - apply Z.eqb_eq in E0. lia.
    - pose proof (ceil_div_bounds count size ltac:(lia)) as B. nia. }
  assert (Hpage : forall s k, In k (page_numbers n) -> int_of_string s = Some k ->
            listed (get_all_products (Some s) size_arg true db)
            = map to_dict
                (firstn (Z.to_nat size)
                   (skipn (Z.to_nat ((k - 1) * size)) (rows db)))).
  { intros s k Hin Hs. apply page_numbers_are_pages in Hin.
    destruct (list_valid (Some s) size_arg db) as (Hdata & _).
    - simpl. rewrite Hs. lia.
    - exact Hsize.
    - rewrite Hdata. simpl. rewrite Hs. reflexivity. }
  rewrite (Forall2_map_eq _ _ _ _ _ Hpage Hargs).
  unfold page_numbers. rewrite <- seq_shift, !map_map.
  rewrite <- (map_map (fun j => firstn (Z.to_nat size)
                                  (skipn (Z.to_nat ((Z.of_nat (S j) - 1) * size))
                                     (rows db)))
                      (map to_dict)).
  rewrite <- concat_map. f_equal.
  rewrite (map_ext _ (fun j => firstn (Z.to_nat size)
                                 (skipn (j * Z.to_nat size) (rows db)))).
  2:{ intros j. do 2 f_equal. lia. }
  rewrite chunks_prefix. apply firstn_all2. unfold count in *. nia.
Qed.

(** X16. For a page and a size of at least 1, and a database that
    answers, [has_next] is true exactly when the request for the following
    page returns at least one item. *)
Theorem list_has_next_iff (page_arg next_arg size_arg : option string)
    (db : Db) :
  1 <= args_get_int page_arg 1 ->
  1 <= args_get_int size_arg 25 ->
  args_get_int next_arg 1 = args_get_int page_arg 1 + 1 ->
  listed_has_next (get_all_products page_arg size_arg true db) = true <->
  listed (get_all_products next_arg size_arg true db) <> [].
Proof.
  intros Hk Hsize Hnext.
  destruct (list_valid page_arg size_arg db Hk Hsize) as (_ & Hpages & Hhas).
  destruct (list_valid next_arg size_arg db ltac:(lia) Hsize) as (Hdata & _).
  rewrite Hhas, Hpages, Hdata, Hnext. clear Hhas Hpages Hdata Hnext.
  set (k := args_get_int page_arg 1) in *.
  set (size := args_get_int size_arg 25) in *.
  set (count := Z.of_nat (List.length (rows db))).
  assert (Hlen : forall l : list pydict, l <> [] <-> List.length l <> 0%nat)
    by (intros l; destruct l; simpl; split; congruence).
  rewrite Hlen, length_map, length_firstn, length_skipn, Z.ltb_lt.
  replace (k + 1 - 1) with k by lia.
  assert (Hpages : (k < (if count =? 0 then 0 else ceil_div count size))
                   <-> k * size < count).
  { destruct (count =? 0) eqn:E0.
    - apply Z.eqb_eq in E0. nia.
    - pose proof (ceil_div_bounds count size ltac:(lia)) as B. nia. }
  rewrite Hpages. unfold count. split; intros K; nia.
Qed.

(** X17. For a page [k] and a size of at least 1, and a database that
    answers, the number of items is the size, cut to what is left of the
    table after the [k - 1] pages before: every page before the last one
    is full. *)
Theorem list_page_length (page_arg size_arg : option string) (db : Db) :
  let k := args_get_int page_arg 1 in
  let size := args_get_int size_arg 25 in
  let count := Z.of_nat (List.length (rows db)) in
  1 <= k -> 1 <= size ->
  Z.of_nat (List.length (listed (get_all_products page_arg size_arg true db)))
  = Z.min size (Z.max 0 (count - (k - 1) * size)).
Proof.
  intros k size count Hk Hsize.
  destruct (list_valid page_arg size_arg db Hk Hsize) as (Hdata & _).
  rewrite Hdata. fold k size.
  rewrite length_map, length_firstn, length_skipn. unfold count. nia.
Qed.

End ListingMore.

Section LifecycleExamples.
#[local] Existing Instance demo.

Lemma delete_then_get_not_found_witness :
  get_single_product 1 (snd (delete_product 1 true shelf))
  = (ItemError (Text "Product not found"), 404).
Proof.
  refine (proj1 (proj2 (delete_then_get_not_found 1 shelf
                          (widget 5 (config_text "5" "20")) _))).
  reflexivity.
Defined.

Lemma delete_touches_one_id_witness :
  get_single_product 2 (snd (delete_product 1 true warehouse))
  = get_single_product 2 warehouse /\
  snd (delete_product 7 true shelf) = shelf.
Proof.
  split.
  - refine (proj1 (proj2 (proj2 (delete_touches_one_id 1 true warehouse))) 2 _).
    lia.
  - refine (proj1 (delete_touches_one_id 7 true shelf) _).
    vm_compute. discriminate.
Defined.

Lemma delete_frees_index_witness :
  first_by_index (snd (delete_product 1 true shelf)) (PStr "P-1") = None.
Proof.
  refine (delete_frees_index 1 shelf (widget 5 (config_text "5" "20")) "P-1"
            _ _ _).
  - simpl. constructor; [simpl; tauto | constructor].
  - reflexivity.
  - reflexivity.
Defined.

Lemma create_all_or_nothing_witness :
  snd (create_new_product (Json (complete_body "P-1" (PInt 1))) 200 shelf)
  = shelf.
Proof.
  refine (proj1 (proj2 (proj2 (create_all_or_nothing
                                 (Json (complete_body "P-1" (PInt 1))) 200 shelf)))
            _).
  vm_compute. reflexivity.
Defined.

Lemma create_then_get_witness :
  exists d,
    get_single_product 2
      (snd (create_new_product (Json (complete_body "P-2" (PInt 1))) 200 shelf))
    = (ItemData d, 200) /\
    lookup "id" d = Some (PInt 2).
Proof.
  assert (Hstatus :
    snd (fst (create_new_product (Json (complete_body "P-2" (PInt 1))) 200 shelf))
    = 201) by (vm_compute; reflexivity).
  assert (Hbelow : forall p, In p (rows shelf) -> id p < next_id shelf).
  { intros p [<-|[]]. simpl. lia. }
  destruct (create_then_get (complete_body "P-2" (PInt 1)) 200 shelf _ _
              Hbelow (surjective_pairing _) Hstatus)
    as (d & _ & Hget & Hid).
  exists d. split; [exact Hget | exact Hid].
Defined.

Lemma create_keeps_index_unique_witness :
  NoDup (map product_index
           (rows (snd (create_new_product
                         (Json (complete_body "P-2" (PInt 1))) 200 shelf)))).
Proof.
  refine (create_keeps_index_unique (complete_body "P-2" (PInt 1)) 200 shelf _ _).
  - simpl. constructor; [simpl; tauto | constructor].
  - intros v Hv. simpl in Hv. inversion Hv. eauto.
Defined.

Lemma create_reports_alert_level_witness :
  exists d,
    fst (fst (create_new_product (Json (complete_body "P-2" (PInt 1))) 200 shelf))
    = ProductPayload "Product created successfully" d /\
    lookup "alert_level" d = Some (PStr "Low Stock").
Proof.
  assert (Hstatus :
    snd (fst (create_new_product (Json (complete_body "P-2" (PInt 1))) 200 shelf))
    = 201) by (vm_compute; reflexivity).
  assert (Hround : forall text,
            json_dumps (PDict [("low_stock", PInt 5); ("in_stock", PInt 20)])
            = inr text ->
            json_loads text
            = inr (PDict [("low_stock", PInt 5); ("in_stock", PInt 20)])).
  { intros text Htext. vm_compute in Htext. inversion Htext. reflexivity. }
  destruct (create_reports_alert_level (complete_body "P-2" (PInt 1)) 200 shelf
              _ _ [("low_stock", PInt 5); ("in_stock", PInt 20)] (PInt 3) 3
              (RFin (inject_Z 5)) (RFin (inject_Z 20))
              (surjective_pairing _) Hstatus eq_refl Hround eq_refl eq_refl
              eq_refl eq_refl)
    as (d & Hd & Hlevel).
  exists d. split; [exact Hd | exact Hlevel].
Defined.

Lemma create_twice_conflicts_witness :
  let first := create_new_product (Json (complete_body "P-2" (PInt 1))) 200 shelf in
  create_new_product (Json (complete_body "P-2" (PInt 1))) 300 (snd first)
  = (error_response (Text "Product index already exists") 400, snd first).
Proof.
  assert (Hstatus :
    snd (fst (create_new_product (Json (complete_body "P-2" (PInt 1))) 200 shelf))
    = 201) by (vm_compute; reflexivity).
  exact (create_twice_conflicts (complete_body "P-2" (PInt 1)) 200 300 shelf
           _ _ "P-2" (surjective_pairing _) Hstatus eq_refl).
Defined.

Lemma handlers_keep_primary_key_witness :
  primary_key (snd (create_new_product (Json (complete_body "P-2" (PInt 1))) 200 shelf)) /\
  primary_key (snd (update_product 1 (Json [("quantity", PInt 9)]) 200 shelf)) /\
  primary_key (snd (delete_product 1 true shelf)).
Proof.
  assert (Hkey : primary_key shelf).
  { split.
    - simpl. constructor; [simpl; tauto | constructor].
    - intros p [<-|[]]. simpl. lia. }
  destruct (handlers_keep_primary_key shelf Hkey) as (Hc & Hu & Hd).
  split; [apply Hc|]. split; [apply Hu | apply Hd].
Defined.

Lemma update_all_or_nothing_witness :
  snd (update_product 1 (Json [("quantity", PStr "many")]) 200 shelf) = shelf /\
  fst (update_product 7 (Json []) 200 shelf)
  = error_response (Text "Product not found") 404.
Proof.
  split.
  - refine (proj1 (proj2 (update_all_or_nothing 1
                            (Json [("quantity", PStr "many")]) 200 shelf)) _).
    vm_compute. discriminate.
  - refine (proj2 (proj2 (proj2 (update_all_or_nothing 7 (Json []) 200 shelf)))
              _ _).
    + discriminate.
    + reflexivity.
Defined.

Lemma update_touches_one_id_witness :
  get_single_product 2
    (snd (update_product 1 (Json [("quantity", PInt 9)]) 200 warehouse))
  = get_single_product 2 warehouse.
Proof.
  refine (proj1 (update_touches_one_id 1 (Json [("quantity", PInt 9)]) 200
                   warehouse) 2 _).
  lia.
Defined.

Lemma update_then_get_witness :
  exists d,
    fst (update_product 1 (Json [("quantity", PInt 9)]) 200 shelf)
    = (ProductPayload "Product updated successfully" d, 200) /\
    get_single_product 1
      (snd (update_product 1 (Json [("quantity", PInt 9)]) 200 shelf))
    = (ItemData d, 200).
Proof.
  refine (update_then_get 1 (Json [("quantity", PInt 9)]) 200 shelf _).
  vm_compute. reflexivity.
Defined.

Lemma update_unknown_keys_noop_witness :
  update_product 1 (Json [("id", PInt 9); ("product_index", PStr "P-9")]) 200 shelf
  = ((ProductPayload "Product updated successfully"
        (to_dict (widget 5 (config_text "5" "20"))), 200), shelf).
Proof.
  refine (update_unknown_keys_noop 1
            [("id", PInt 9); ("product_index", PStr "P-9")] 200 shelf
            (widget 5 (config_text "5" "20")) _ _).
  - reflexivity.
  - intros k Hk. simpl in Hk.
    repeat (destruct Hk as [<-|Hk]; [reflexivity|]). contradiction.
Defined.

Lemma update_rejects_bad_price_witness :
  update_product 1
    (Json [("name", PStr "Renamed"); ("buying_price", PStr "cheap")]) 200 shelf
  = (error_response (Text "Invalid buying_price format") 400, shelf).
Proof.
  exact (update_rejects_bad_price 1
           [("name", PStr "Renamed"); ("buying_price", PStr "cheap")] 200 shelf
           (widget 5 (config_text "5" "20")) (PStr "cheap") ValueError
           eq_refl eq_refl eq_refl).
Defined.

Lemma list_pages_partition_witness :
  List.concat
    (map (fun s => listed (get_all_products (Some s) None true warehouse))
       ["1"; "2"; "3"])
  = map to_dict (rows warehouse).
Proof.
  refine (list_pages_partition None warehouse ["1"; "2"; "3"] _ _).
  - simpl. lia.
  - vm_compute. repeat constructor.
Defined.

Lemma list_has_next_iff_witness :
  listed_has_next (get_all_products (Some "2") None true warehouse) = true <->
  listed (get_all_products (Some "3") None true warehouse) <> [].
Proof.
  refine (list_has_next_iff (Some "2") (Some "3") None warehouse _ _ _).
  - vm_compute. discriminate.
  - vm_compute. discriminate.
  - reflexivity.
Defined.

Lemma list_page_length_witness :
  Z.of_nat (List.length (listed (get_all_products (Some "3") None true warehouse)))
  = 10.
Proof.
  refine (list_page_length (Some "3") None warehouse _ _).
  - vm_compute. discriminate.
  - vm_compute. discriminate.
Defined.

Lemma stock_alert_default_thresholds_witness :
  stock_alert (widget 7 "{}") = "Moderate Stock".
Proof.
  exact (stock_alert_default_thresholds (widget 7 "{}") [] eq_refl eq_refl eq_refl).
Defined.

Lemma stock_alert_monotone_witness :
  stock_rank (stock_alert (widget 3 (config_text "5" "20")))
  <= stock_rank (stock_alert (widget 7 (config_text "5" "20"))).
Proof.
  refine (stock_alert_monotone (widget 3 (config_text "5" "20"))
            (widget 7 (config_text "5" "20"))
            [("low_stock", PInt 5); ("in_stock", PInt 20)]
            (RFin (inject_Z 5)) (RFin (inject_Z 20)) _ _ _ _ _).
  - reflexivity.
  - reflexivity.
  - reflexivity.
  - reflexivity.
  - simpl. lia.
Defined.

Lemma update_change_stamps_witness :
  option_map last_updated
    (query_get (snd (update_product 1 (Json [("quantity", PInt 9)]) 200 shelf)) 1)
  = Some 200.
Proof.
  destruct (update_change_stamps 1 (Json [("quantity", PInt 9)]) 200 shelf)
    as (_ & p & Hget & Hstamp).
  - vm_compute. discriminate.
  - rewrite Hget. cbn [option_map]. now rewrite Hstamp.
Defined.

Lemma update_quantity_twice_witness :
  let first := update_product 1 (Json [("quantity", PInt 9)]) 200 shelf in
  update_product 1 (Json [("quantity", PInt 9)]) 300 (snd first) = first.
Proof.
  refine (update_quantity_twice 1 [("quantity", PInt 9)] (PInt 9) 9 200 300
            shelf (widget 5 (config_text "5" "20")) _ _ _ _ _).
  - reflexivity.
  - reflexivity.
  - intros k Hk. simpl.
    destruct (String.eqb_spec k "quantity"); [contradiction | reflexivity].
  - reflexivity.
  - vm_compute. reflexivity.
Defined.

End LifecycleExamples.

Section InvertedExample.
#[local] Existing Instance demo_more.

Lemma stock_alert_inverted_thresholds_witness :
  stock_alert (widget 7 (config_text "20" "5")) <> "Moderate Stock" /\
  stock_alert (widget 25 (config_text "20" "5")) = "In Stock".
Proof.
  split.
  - refine (proj1 (stock_alert_inverted_thresholds
                     (widget 7 (config_text "20" "5"))
                     [("low_stock", PInt 20); ("in_stock", PInt 5)]
                     (RFin (inject_Z 20)) (RFin (inject_Z 5)) _ _ _ _)).
    + reflexivity.
    + reflexivity.
    + reflexivity.
    + reflexivity.
  - refine (proj2 (stock_alert_inverted_thresholds
                     (widget 25 (config_text "20" "5"))
                     [("low_stock", PInt 20); ("in_stock", PInt 5)]
                     (RFin (inject_Z 20)) (RFin (inject_Z 5)) _ _ _ _) _ _).
    + reflexivity.
    + reflexivity.
    + reflexivity.
    + reflexivity.
    + simpl. lia.
    + reflexivity.
Defined.

End InvertedExample.
